(** * Color palette generator: the server actions over the two tables

    A shallow embedding of [src/actions/index.ts] and [db/tables.ts].
    The two tables are lists of rows kept in insertion order, the
    handlers run in a state-and-exception monad over the request's
    world (the store, a log of the statements sent to it, the clock and
    the UUID source), and [defineAction] puts the input schema in front
    of a handler.  An operation is its handler: it runs on what the
    schema let through. *)

From Stdlib Require Import String List ZArith Bool Lia DecimalString.
From Stdlib Require Import Floats.PrimFloat.
Import ListNotations.
Open Scope string_scope.

Set Implicit Arguments.

(** ** The tables ([db/tables.ts]) *)

(** A [column.date] value: milliseconds since the epoch. *)
Definition Date := Z.

(** A [column.number] value that is not constrained to an integer. *)
Definition number := float.

Module ColorPalettes.
Record row := mk {
  id : string;
  userId : string;
  name : string;
  description : option string;
  sourceType : option string;
  sourceReference : option string;
  isFavorite : bool;
  isSystem : bool;
  createdAt : Date;
  updatedAt : Date
}.
End ColorPalettes.

Module PaletteColors.
Record row := mk {
  id : string;
  paletteId : string;
  orderIndex : option Z;
  hexValue : string;
  role : option string;
  label : option string;
  contrastOnLight : option number;
  contrastOnDark : option number;
  createdAt : Date
}.
End PaletteColors.

Abbreviation Palette := ColorPalettes.row.
Abbreviation Color := PaletteColors.row.

(** ** The world of one request *)

Inductive Table := TColorPalettes | TPaletteColors.

(** One statement sent to the store. *)
Inductive Statement :=
| SELECT (t : Table)
| INSERT (t : Table)
| UPDATE (t : Table)
| DELETE (t : Table).

Record World := mkWorld {
  palettes : list Palette;
  colors : list Color;
  db_log : list Statement;        (* statements issued so far, oldest first *)
  uuid_source : nat -> string;    (* what the n-th crypto.randomUUID() yields *)
  uuid_calls : nat;
  clock : nat -> Date;            (* what the n-th new Date() yields *)
  clock_reads : nat
}.

Definition with_palettes (ps : list Palette) (w : World) : World :=
  mkWorld ps (colors w) (db_log w) (uuid_source w) (uuid_calls w)
          (clock w) (clock_reads w).

Definition with_colors (cs : list Color) (w : World) : World :=
  mkWorld (palettes w) cs (db_log w) (uuid_source w) (uuid_calls w)
          (clock w) (clock_reads w).

Definition logged (s : Statement) (w : World) : World :=
  mkWorld (palettes w) (colors w) (db_log w ++ [s]) (uuid_source w)
          (uuid_calls w) (clock w) (clock_reads w).

(** ** Exceptions and the handler monad *)

Inductive ErrorCode := UNAUTHORIZED | FORBIDDEN | NOT_FOUND.

Inductive Exn :=
| ActionError (code : ErrorCode) (message : string)
| ActionInputError                      (* the input schema rejected the request *)
| StoreError (message : string).        (* the store or the query builder threw *)

Inductive Outcome (A : Type) :=
| Ok (a : A)
| Throw (e : Exn).
Arguments Ok {A} a.
Arguments Throw {A} e.

(** A thrown exception keeps the world as it was when it was thrown:
    the handlers open no transaction. *)
Definition M (A : Type) := World -> Outcome A * World.

Definition ret {A} (a : A) : M A := fun w => (Ok a, w).
Definition throw {A} (e : Exn) : M A := fun w => (Throw e, w).
Definition bind {A B} (m : M A) (k : A -> M B) : M B :=
  fun w => match m w with
           | (Ok a, w') => k a w'
           | (Throw e, w') => (Throw e, w')
           end.

Notation "x <- m ;; k" := (bind m (fun x => k))
  (at level 61, m at next level, right associativity).
Notation "m ;;; k" := (bind m (fun _ => k))
  (at level 61, right associativity).

(** [crypto.randomUUID()] *)
Definition randomUUID : M string :=
  fun w => (Ok (uuid_source w (uuid_calls w)),
            mkWorld (palettes w) (colors w) (db_log w) (uuid_source w)
                    (S (uuid_calls w)) (clock w) (clock_reads w)).

(** [new Date()] *)
Definition new_Date : M Date :=
  fun w => (Ok (clock w (clock_reads w)),
            mkWorld (palettes w) (colors w) (db_log w) (uuid_source w)
                    (uuid_calls w) (clock w) (S (clock_reads w))).

(** ** The store

    Each function is one statement of the query builder, with its
    [where] clause as a predicate on rows. *)

Module db.

Definition select_palettes (where_ : Palette -> bool) : M (list Palette) :=
  fun w => (Ok (filter where_ (palettes w)), logged (SELECT TColorPalettes) w).

Definition select_colors (where_ : Color -> bool) : M (list Color) :=
  fun w => (Ok (filter where_ (colors w)), logged (SELECT TPaletteColors) w).

(** [insert(..).values(v).returning()]: the primary key refuses a second
    row with the same id.  The foreign key of a color needs no check of
    its own: the one handler that inserts a color has just looked its
    palette up, and no handler deletes a palette. *)
Definition insert_palette (v : Palette) : M (list Palette) :=
  fun w =>
    let w1 := logged (INSERT TColorPalettes) w in
    if existsb (fun p => ColorPalettes.id p =? ColorPalettes.id v) (palettes w)
    then (Throw (StoreError "UNIQUE constraint failed: ColorPalettes.id"), w1)
    else (Ok [v], with_palettes (palettes w ++ [v]) w1).

Definition insert_color (v : Color) : M (list Color) :=
  fun w =>
    let w1 := logged (INSERT TPaletteColors) w in
    if existsb (fun c => PaletteColors.id c =? PaletteColors.id v) (colors w)
    then (Throw (StoreError "UNIQUE constraint failed: PaletteColors.id"), w1)
    else (Ok [v], with_colors (colors w ++ [v]) w1).

(** The object given to [set]: a column is rewritten when its key is
    there. *)
Record palette_set := mkPaletteSet {
  set_name : option string;
  set_description : option string;
  set_sourceType : option string;
  set_sourceReference : option string;
  set_isFavorite : option bool;
  set_updatedAt : option Date
}.

Record color_set := mkColorSet {
  set_orderIndex : option Z;
  set_hexValue : option string;
  set_role : option string;
  set_label : option string;
  set_contrastOnLight : option number;
  set_contrastOnDark : option number
}.

Definition or_keep {A} (v : option A) (old : A) : A :=
  match v with Some a => a | None => old end.

Definition or_keep_opt {A} (v : option A) (old : option A) : option A :=
  match v with Some a => Some a | None => old end.

Definition apply_palette_set (s : palette_set) (p : Palette) : Palette :=
  ColorPalettes.mk
    (ColorPalettes.id p)
    (ColorPalettes.userId p)
    (or_keep (set_name s) (ColorPalettes.name p))
    (or_keep_opt (set_description s) (ColorPalettes.description p))
    (or_keep_opt (set_sourceType s) (ColorPalettes.sourceType p))
    (or_keep_opt (set_sourceReference s) (ColorPalettes.sourceReference p))
    (or_keep (set_isFavorite s) (ColorPalettes.isFavorite p))
    (ColorPalettes.isSystem p)
    (ColorPalettes.createdAt p)
    (or_keep (set_updatedAt s) (ColorPalettes.updatedAt p)).

Definition apply_color_set (s : color_set) (c : Color) : Color :=
  PaletteColors.mk
    (PaletteColors.id c)
    (PaletteColors.paletteId c)
    (or_keep_opt (set_orderIndex s) (PaletteColors.orderIndex c))
    (or_keep (set_hexValue s) (PaletteColors.hexValue c))
    (or_keep_opt (set_role s) (PaletteColors.role c))
    (or_keep_opt (set_label s) (PaletteColors.label c))
    (or_keep_opt (set_contrastOnLight s) (PaletteColors.contrastOnLight c))
    (or_keep_opt (set_contrastOnDark s) (PaletteColors.contrastOnDark c))
    (PaletteColors.createdAt c).

Definition is_some {A} (v : option A) : bool :=
  match v with Some _ => true | None => false end.

Definition palette_set_empty (s : palette_set) : bool :=
  negb (is_some (set_name s) || is_some (set_description s)
        || is_some (set_sourceType s) || is_some (set_sourceReference s)
        || is_some (set_isFavorite s) || is_some (set_updatedAt s)).

Definition color_set_empty (s : color_set) : bool :=
  negb (is_some (set_orderIndex s) || is_some (set_hexValue s)
        || is_some (set_role s) || is_some (set_label s)
        || is_some (set_contrastOnLight s) || is_some (set_contrastOnDark s)).

(** [update(..).set(s).where(..).returning()]: the rows the [where]
    clause keeps are rewritten and come back.  The query builder throws
    on an object with no key, before anything is sent. *)
Definition update_palettes (s : palette_set)
           (where_ : Palette -> bool) : M (list Palette) :=
  fun w =>
    if palette_set_empty s then (Throw (StoreError "No values to set"), w)
    else
      (Ok (map (apply_palette_set s) (filter where_ (palettes w))),
       with_palettes
         (map (fun p => if where_ p then apply_palette_set s p else p)
              (palettes w))
         (logged (UPDATE TColorPalettes) w)).

Definition update_colors (s : color_set)
           (where_ : Color -> bool) : M (list Color) :=
  fun w =>
    if color_set_empty s then (Throw (StoreError "No values to set"), w)
    else
      (Ok (map (apply_color_set s) (filter where_ (colors w))),
       with_colors
         (map (fun c => if where_ c then apply_color_set s c else c)
              (colors w))
         (logged (UPDATE TPaletteColors) w)).

(** [delete(..).where(..)]: the result carries [rowsAffected]. *)
Definition delete_colors (where_ : Color -> bool) : M nat :=
  fun w =>
    (Ok (length (filter where_ (colors w))),
     with_colors (filter (fun c => negb (where_ c)) (colors w))
                 (logged (DELETE TPaletteColors) w)).

End db.

(** ** The request context and the two helpers *)

Record User := mkUser { user_id : string }.
Record Locals := mkLocals { user : option User }.
Record ActionAPIContext := mkContext { locals : option Locals }.

(** [context.locals?.user] *)
Definition locals_user (context : ActionAPIContext) : option User :=
  match locals context with Some l => user l | None => None end.

(** [function requireUser(context)] *)
Definition requireUser (context : ActionAPIContext) : M User :=
  match locals_user context with
  | None => throw (ActionError UNAUTHORIZED
                     "You must be signed in to perform this action.")
  | Some u => ret u
  end.

(** [async function getOwnedPalette(paletteId, userId)] *)
Definition getOwnedPalette (paletteId userId : string) : M Palette :=
  rows <- db.select_palettes (fun p => ColorPalettes.id p =? paletteId) ;;
  match rows with
  | [] => throw (ActionError NOT_FOUND "Palette not found.")
  | palette :: _ =>
      if negb (ColorPalettes.userId palette =? userId)
         && negb (ColorPalettes.isSystem palette)
      then throw (ActionError FORBIDDEN "You do not have access to this palette.")
      else ret palette
  end.

(** ** [defineAction]: the input schema runs before the handler *)

Definition defineAction {R I O} (input : R -> option I)
           (handler : I -> ActionAPIContext -> M O)
  : R -> ActionAPIContext -> M O :=
  fun request context =>
    match input request with
    | None => throw ActionInputError
    | Some parsed => handler parsed context
    end.

(** [z.string().min(1)] *)
Definition min1 (s : string) : bool := negb (s =? "").

(** [const [row] = rows]: the first row, or [undefined]. *)
Definition first {A} (rows : list A) : option A :=
  match rows with [] => None | r :: _ => Some r end.

(** [{ items, total }] *)
Record Listing (A : Type) := mkListing { items : list A; total : nat }.

Import db.

Module createPalette.
Record input := mk {
  name : string;
  description : option string;
  sourceType : option string;
  sourceReference : option string;
  isFavorite : option bool
}.

Definition schema (i : input) : option input :=
  if min1 (name i) then Some i else None.

Definition handler (i : input) (context : ActionAPIContext)
  : M (option Palette) :=
  user <- requireUser context ;;
  now <- new_Date ;;
  uuid <- randomUUID ;;
  rows <- db.insert_palette
            (ColorPalettes.mk uuid (user_id user) (name i) (description i)
               (sourceType i) (sourceReference i)
               (match isFavorite i with Some b => b | None => false end)
               false now now) ;;
  ret (first rows).
End createPalette.

Module updatePalette.
Record input := mk {
  id : string;
  name : option string;
  description : option string;
  sourceType : option string;
  sourceReference : option string;
  isFavorite : option bool
}.

Definition schema (i : input) : option input :=
  if min1 (id i)
     && (is_some (name i) || is_some (description i)
         || is_some (sourceType i) || is_some (sourceReference i)
         || is_some (isFavorite i))
  then Some i else None.

Definition handler (i : input) (context : ActionAPIContext)
  : M (option Palette) :=
  user <- requireUser context ;;
  palette <- getOwnedPalette (id i) (user_id user) ;;
  now <- new_Date ;;
  rows <- db.update_palettes
            (mkPaletteSet (name i) (description i) (sourceType i)
                          (sourceReference i) (isFavorite i) (Some now))
            (fun p => ColorPalettes.id p =? id i) ;;
  ret (first rows).
End updatePalette.

Module listPalettes.
Record request := mkRequest { favoritesOnly_opt : option bool }.
Record input := mk { favoritesOnly : bool }.

(** [z.boolean().default(false)] *)
Definition schema (r : request) : option input :=
  Some (mk (match favoritesOnly_opt r with Some b => b | None => false end)).

Definition handler (i : input) (context : ActionAPIContext)
  : M (Listing Palette) :=
  user <- requireUser context ;;
  let filters :=
    [fun p : Palette => (ColorPalettes.userId p =? user_id user)
                        || Bool.eqb (ColorPalettes.isSystem p) true] in
  let filters :=
    if favoritesOnly i
    then (filters ++ [fun p : Palette => Bool.eqb (ColorPalettes.isFavorite p) true])%list
    else filters in
  palettes <- db.select_palettes (fun p => forallb (fun f => f p) filters) ;;
  ret (mkListing palettes (length palettes)).
End listPalettes.

Module createPaletteColor.
Record input := mk {
  paletteId : string;
  orderIndex : option Z;
  hexValue : string;
  role : option string;
  label : option string;
  contrastOnLight : option number;
  contrastOnDark : option number
}.

Definition schema (i : input) : option input :=
  if min1 (paletteId i) && min1 (hexValue i) then Some i else None.

Definition handler (i : input) (context : ActionAPIContext)
  : M (option Color) :=
  user <- requireUser context ;;
  getOwnedPalette (paletteId i) (user_id user) ;;;
  uuid <- randomUUID ;;
  now <- new_Date ;;
  rows <- db.insert_color
            (PaletteColors.mk uuid (paletteId i) (orderIndex i) (hexValue i)
               (role i) (label i) (contrastOnLight i) (contrastOnDark i) now) ;;
  ret (first rows).
End createPaletteColor.

Module updatePaletteColor.
Record input := mk {
  id : string;
  paletteId : string;
  orderIndex : option Z;
  hexValue : option string;
  role : option string;
  label : option string;
  contrastOnLight : option number;
  contrastOnDark : option number
}.

Definition schema (i : input) : option input :=
  if min1 (id i) && min1 (paletteId i)
     && (is_some (orderIndex i) || is_some (hexValue i) || is_some (role i)
         || is_some (label i) || is_some (contrastOnLight i)
         || is_some (contrastOnDark i))
  then Some i else None.

Definition handler (i : input) (context : ActionAPIContext)
  : M (option Color) :=
  user <- requireUser context ;;
  getOwnedPalette (paletteId i) (user_id user) ;;;
  existing <- db.select_colors
                (fun c => (PaletteColors.id c =? id i)
                          && (PaletteColors.paletteId c =? paletteId i)) ;;
  match first existing with
  | None => throw (ActionError NOT_FOUND "Palette color not found.")
  | Some _ =>
      rows <- db.update_colors
                (mkColorSet (orderIndex i) (hexValue i) (role i) (label i)
                            (contrastOnLight i) (contrastOnDark i))
                (fun c => PaletteColors.id c =? id i) ;;
      ret (first rows)
  end.
End updatePaletteColor.

Module deletePaletteColor.
Record input := mk { id : string; paletteId : string }.

Definition schema (i : input) : option input :=
  if min1 (id i) && min1 (paletteId i) then Some i else None.

Definition handler (i : input) (context : ActionAPIContext) : M unit :=
  user <- requireUser context ;;
  getOwnedPalette (paletteId i) (user_id user) ;;;
  rowsAffected <- db.delete_colors
                    (fun c => (PaletteColors.id c =? id i)
                              && (PaletteColors.paletteId c =? paletteId i)) ;;
  if Nat.eqb rowsAffected 0
  then throw (ActionError NOT_FOUND "Palette color not found.")
  else ret tt.
End deletePaletteColor.

Module listPaletteColors.
Record input := mk { paletteId : string }.

Definition schema (i : input) : option input :=
  if min1 (paletteId i) then Some i else None.

Definition handler (i : input) (context : ActionAPIContext)
  : M (Listing Color) :=
  user <- requireUser context ;;
  getOwnedPalette (paletteId i) (user_id user) ;;;
  colors <- db.select_colors (fun c => PaletteColors.paletteId c =? paletteId i) ;;
  ret (mkListing colors (length colors)).
End listPaletteColors.

(** ** [export const server] *)

Module server.
Definition createPalette :=
  defineAction createPalette.schema createPalette.handler.
Definition updatePalette :=
  defineAction updatePalette.schema updatePalette.handler.
Definition listPalettes :=
  defineAction listPalettes.schema listPalettes.handler.
Definition createPaletteColor :=
  defineAction createPaletteColor.schema createPaletteColor.handler.
Definition updatePaletteColor :=
  defineAction updatePaletteColor.schema updatePaletteColor.handler.
Definition deletePaletteColor :=
  defineAction deletePaletteColor.schema deletePaletteColor.handler.
Definition listPaletteColors :=
  defineAction listPaletteColors.schema listPaletteColors.handler.
End server.

(** The seven handlers as one interface: the world a call leaves behind. *)
Inductive Call :=
| CreatePalette (i : createPalette.input)
| UpdatePalette (i : updatePalette.input)
| ListPalettes (i : listPalettes.input)
| CreatePaletteColor (i : createPaletteColor.input)
| UpdatePaletteColor (i : updatePaletteColor.input)
| DeletePaletteColor (i : deletePaletteColor.input)
| ListPaletteColors (i : listPaletteColors.input).

Definition world_after (c : Call) (context : ActionAPIContext) (w : World)
  : World :=
  match c with
  | CreatePalette i => snd (createPalette.handler i context w)
  | UpdatePalette i => snd (updatePalette.handler i context w)
  | ListPalettes i => snd (listPalettes.handler i context w)
  | CreatePaletteColor i => snd (createPaletteColor.handler i context w)
  | UpdatePaletteColor i => snd (updatePaletteColor.handler i context w)
  | DeletePaletteColor i => snd (deletePaletteColor.handler i context w)
  | ListPaletteColors i => snd (listPaletteColors.handler i context w)
  end.

(** ** Vocabulary of the statements *)

(** The primary key of a table: no two rows share an id. *)
Definition pk_unique {A} (key : A -> string) (rows : list A) : Prop :=
  NoDup (map key rows).

(** The caller owns the palette named [paletteId], or it is a system one. *)
Definition may_act_on (w : World) (callerId paletteId : string) : Prop :=
  exists p, In p (palettes w) /\ ColorPalettes.id p = paletteId
            /\ (ColorPalettes.userId p = callerId
                \/ ColorPalettes.isSystem p = true).

(** A color row with this id sits under this palette. *)
Definition color_under (w : World) (colorId paletteId : string) : Prop :=
  exists c, In c (colors w) /\ PaletteColors.id c = colorId
            /\ PaletteColors.paletteId c = paletteId.

Definition unauthorized : Exn :=
  ActionError UNAUTHORIZED "You must be signed in to perform this action.".
Definition not_found_palette : Exn := ActionError NOT_FOUND "Palette not found.".
Definition forbidden : Exn :=
  ActionError FORBIDDEN "You do not have access to this palette.".
Definition not_found_color : Exn :=
  ActionError NOT_FOUND "Palette color not found.".

(** What a partial update of a palette row amounts to: each updatable
    column takes the request's value when the request has one and keeps
    its own otherwise, [updatedAt] becomes [t], the rest is kept. *)
Definition palette_patched (r : updatePalette.input) (t : Date)
           (p p' : Palette) : Prop :=
  ColorPalettes.id p' = ColorPalettes.id p
  /\ ColorPalettes.userId p' = ColorPalettes.userId p
  /\ ColorPalettes.isSystem p' = ColorPalettes.isSystem p
  /\ ColorPalettes.createdAt p' = ColorPalettes.createdAt p
  /\ ColorPalettes.name p'
     = match updatePalette.name r with
       | Some v => v | None => ColorPalettes.name p end
  /\ ColorPalettes.description p'
     = match updatePalette.description r with
       | Some v => Some v | None => ColorPalettes.description p end
  /\ ColorPalettes.sourceType p'
     = match updatePalette.sourceType r with
       | Some v => Some v | None => ColorPalettes.sourceType p end
  /\ ColorPalettes.sourceReference p'
     = match updatePalette.sourceReference r with
       | Some v => Some v | None => ColorPalettes.sourceReference p end
  /\ ColorPalettes.isFavorite p'
     = match updatePalette.isFavorite r with
       | Some v => v | None => ColorPalettes.isFavorite p end
  /\ ColorPalettes.updatedAt p' = t.

(** The columns of a palette row that no update writes. *)
Definition palette_frame (p p' : Palette) : Prop :=
  ColorPalettes.id p' = ColorPalettes.id p
  /\ ColorPalettes.userId p' = ColorPalettes.userId p
  /\ ColorPalettes.isSystem p' = ColorPalettes.isSystem p
  /\ ColorPalettes.createdAt p' = ColorPalettes.createdAt p.

(** The columns of a color row that no update writes. *)
Definition color_frame (c c' : Color) : Prop :=
  PaletteColors.id c' = PaletteColors.id c
  /\ PaletteColors.paletteId c' = PaletteColors.paletteId c
  /\ PaletteColors.createdAt c' = PaletteColors.createdAt c.

(** Two palette rows that agree on every column but [updatedAt]. *)
Definition same_but_updatedAt (p q : Palette) : Prop :=
  ColorPalettes.id p = ColorPalettes.id q
  /\ ColorPalettes.userId p = ColorPalettes.userId q
  /\ ColorPalettes.name p = ColorPalettes.name q
  /\ ColorPalettes.description p = ColorPalettes.description q
  /\ ColorPalettes.sourceType p = ColorPalettes.sourceType q
  /\ ColorPalettes.sourceReference p = ColorPalettes.sourceReference q
  /\ ColorPalettes.isFavorite p = ColorPalettes.isFavorite q
  /\ ColorPalettes.isSystem p = ColorPalettes.isSystem q
  /\ ColorPalettes.createdAt p = ColorPalettes.createdAt q.

(** The objects the two update handlers give to [set]. *)
Abbreviation palette_set_of i t :=
  (db.mkPaletteSet (updatePalette.name i) (updatePalette.description i)
     (updatePalette.sourceType i) (updatePalette.sourceReference i)
     (updatePalette.isFavorite i) (Some t)).

Abbreviation color_set_of i :=
  (db.mkColorSet (updatePaletteColor.orderIndex i) (updatePaletteColor.hexValue i)
     (updatePaletteColor.role i) (updatePaletteColor.label i)
     (updatePaletteColor.contrastOnLight i) (updatePaletteColor.contrastOnDark i)).

(** The palettes a caller sees in a listing. *)
Definition listed_for (callerId : string) (favoritesOnly : bool)
           (p : Palette) : Prop :=
  (ColorPalettes.userId p = callerId \/ ColorPalettes.isSystem p = true)
  /\ (favoritesOnly = true -> ColorPalettes.isFavorite p = true).

(** ** A small seeded store, for running the handlers *)

Module Demo.
Local Open Scope Z_scope.

Definition alice := mkUser "alice".
Definition mallory := mkUser "mallory".

Definition signed_in (u : User) : ActionAPIContext :=
  mkContext (Some (mkLocals (Some u))).
Definition anonymous : ActionAPIContext := mkContext (Some (mkLocals None)).

(** A pre-seeded system palette and a palette of alice's. *)
Definition curated : Palette :=
  ColorPalettes.mk "p0" "system" "Curated" None None None false true 1000 1000.
Definition sunset : Palette :=
  ColorPalettes.mk "p1" "alice" "Sunset" None (Some "manual") None false false
                   1500 1500.
Definition dusk : Palette :=
  ColorPalettes.mk "p2" "alice" "Dusk" (Some "evening") None None true false
                   1600 1700.

(** One color under each of alice's palettes. *)
Definition coral : Color :=
  PaletteColors.mk "c1" "p1" (Some 0%Z) "#FF5733" (Some "primary") None
                   (Some 4.5%float) None 1550.
Definition indigo : Color :=
  PaletteColors.mk "c2" "p2" None "#4B0082" None None None None 1650.

Definition uuids (n : nat) : string :=
  "uuid-" ++ NilEmpty.string_of_uint (Nat.to_uint n).

Definition world : World :=
  mkWorld [curated; sunset; dusk] [coral; indigo] []
          uuids 0 (fun n => (2000 + Z.of_nat n)%Z) 0.
(** mallory renames the system palette. *)
Definition rename_curated : updatePalette.input :=
  updatePalette.mk "p0" (Some "Mine now") None None None None.
Definition renamed : Palette :=
  ColorPalettes.mk "p0" "system" "Mine now" None None None false true 1000 2000.

(** alice names her color [c1] but the wrong one of her palettes. *)
Definition recolor_elsewhere : updatePaletteColor.input :=
  updatePaletteColor.mk "c1" "p2" None (Some "#000000") None None None None.
(** alice creates a favorite palette. *)
Definition new_ocean : createPalette.input :=
  createPalette.mk "Ocean" None None None (Some true).
Definition ocean : Palette :=
  ColorPalettes.mk "uuid-0" "alice" "Ocean" None None None true false 2000 2000.
(** alice marks [p1] as a favorite; and a request with the id alone. *)
Definition favor_sunset : updatePalette.input :=
  updatePalette.mk "p1" None None None None (Some true).
Definition sunset_favored : Palette :=
  ColorPalettes.mk "p1" "alice" "Sunset" None (Some "manual") None true false
                   1500 2000.
Definition touch_sunset : updatePalette.input :=
  updatePalette.mk "p1" None None None None None.
(** alice relabels her color [c1] under its own palette. *)
Definition relabel_coral : updatePaletteColor.input :=
  updatePaletteColor.mk "c1" "p1" None None None (Some "Coral") None None.
Definition coral_relabelled : Color :=
  PaletteColors.mk "c1" "p1" (Some 0) "#FF5733" (Some "primary") (Some "Coral")
                   (Some 4.5%float) None 1550.
End Demo.

(** ** Sequences of calls, and more vocabulary *)

(** The world after a sequence of calls, each with its own context. *)
Definition run (calls : list (Call * ActionAPIContext)) (w : World) : World :=
  fold_left (fun w' cc => world_after (fst cc) (snd cc) w') calls w.

(** The exception a call ends with, if it throws. *)
Definition thrown {A} (r : Outcome A * World) : option Exn :=
  match fst r with Ok _ => None | Throw e => Some e end.

Definition exception_of (c : Call) (context : ActionAPIContext) (w : World)
  : option Exn :=
  match c with
  | CreatePalette i => thrown (createPalette.handler i context w)
  | UpdatePalette i => thrown (updatePalette.handler i context w)
  | ListPalettes i => thrown (listPalettes.handler i context w)
  | CreatePaletteColor i => thrown (createPaletteColor.handler i context w)
  | UpdatePaletteColor i => thrown (updatePaletteColor.handler i context w)
  | DeletePaletteColor i => thrown (deletePaletteColor.handler i context w)
  | ListPaletteColors i => thrown (listPaletteColors.handler i context w)
  end.

(** The columns that tell whose palette a row is and since when. *)
Definition palette_identity (p : Palette) : string * string * bool * Date :=
  (ColorPalettes.id p, ColorPalettes.userId p, ColorPalettes.isSystem p,
   ColorPalettes.createdAt p).


(** The statements a call may add to the log, in order. *)
Definition traces (c : Call) : list (list Statement) :=
  match c with
  | CreatePalette _ => [[]; [INSERT TColorPalettes]]
  | UpdatePalette _ =>
      [[]; [SELECT TColorPalettes];
       [SELECT TColorPalettes; UPDATE TColorPalettes]]
  | ListPalettes _ => [[]; [SELECT TColorPalettes]]
  | CreatePaletteColor _ =>
      [[]; [SELECT TColorPalettes];
       [SELECT TColorPalettes; INSERT TPaletteColors]]
  | UpdatePaletteColor _ =>
      [[]; [SELECT TColorPalettes];
       [SELECT TColorPalettes; SELECT TPaletteColors];
       [SELECT TColorPalettes; SELECT TPaletteColors; UPDATE TPaletteColors]]
  | DeletePaletteColor _ =>
      [[]; [SELECT TColorPalettes];
       [SELECT TColorPalettes; DELETE TPaletteColors]]
  | ListPaletteColors _ =>
      [[]; [SELECT TColorPalettes];
       [SELECT TColorPalettes; SELECT TPaletteColors]]
  end.

(** More requests against the seeded store. *)
Module Scenario.
Local Open Scope Z_scope.

(** alice adds a color to [p1]. *)
Definition add_teal : createPaletteColor.input :=
  createPaletteColor.mk "p1" (Some 1) "#008080" None (Some "Teal") None None.
Definition teal : Color :=
  PaletteColors.mk "uuid-0" "p1" (Some 1) "#008080" None (Some "Teal")
                   None None 2000.

Definition drop_coral : deletePaletteColor.input :=
  deletePaletteColor.mk "c1" "p1".

(** A day of requests: mallory renames the system palette, alice creates
    a palette, adds a color to [p1], and deletes her color [c1]. *)
Definition day : list (Call * ActionAPIContext) :=
  [(UpdatePalette Demo.rename_curated, Demo.signed_in Demo.mallory);
   (CreatePalette Demo.new_ocean, Demo.signed_in Demo.alice);
   (CreatePaletteColor add_teal, Demo.signed_in Demo.alice);
   (DeletePaletteColor drop_coral, Demo.signed_in Demo.alice)].
End Scenario.

(** * Properties *)

Unset Implicit Arguments.

(** ** The monad *)

Lemma bind_ok {A B} (m : M A) (k : A -> M B) w a w' :
  m w = (Ok a, w') -> bind m k w = k a w'.
Proof. intros H. unfold bind. now rewrite H. Qed.

Lemma bind_throw {A B} (m : M A) (k : A -> M B) w e w' :
  m w = (Throw e, w') -> bind m k w = (Throw e, w').
Proof. intros H. unfold bind. now rewrite H. Qed.

Lemma bind_ok_inv {A B} (m : M A) (k : A -> M B) w b w2 :
  bind m k w = (Ok b, w2) ->
  exists a w1, m w = (Ok a, w1) /\ k a w1 = (Ok b, w2).
Proof.
  unfold bind. destruct (m w) as [[a|e] w1]; intros H.
  - now exists a, w1.
  - discriminate.
Qed.

Lemma defineAction_accepts {R I O} (input : R -> option I)
      (handler : I -> ActionAPIContext -> M O) r i context :
  input r = Some i -> defineAction input handler r context = handler i context.
Proof. intros H. unfold defineAction. now rewrite H. Qed.

Lemma defineAction_rejects {R I O} (input : R -> option I)
      (handler : I -> ActionAPIContext -> M O) r context w :
  input r = None ->
  defineAction input handler r context w = (Throw ActionInputError, w).
Proof. intros H. unfold defineAction. now rewrite H. Qed.

(** ** Rows and keys *)

Lemma filter_nothing {A} (f : A -> bool) (l : list A) :
  (forall x, In x l -> f x = false) -> filter f l = [].
Proof.
  induction l as [|x l IH]; intros H; simpl; [reflexivity|].
  rewrite (H x (or_introl eq_refl)). apply IH. intros y Hy. apply H. now right.
Qed.

Lemma filter_everything {A} (f : A -> bool) (l : list A) :
  (forall x, In x l -> f x = true) -> filter f l = l.
Proof.
  induction l as [|x l IH]; intros H; simpl; [reflexivity|].
  rewrite (H x (or_introl eq_refl)). f_equal. apply IH.
  intros y Hy. apply H. now right.
Qed.

Lemma filter_key_unique {A} (key : A -> string) (l : list A) (r : A) :
  pk_unique key l -> In r l ->
  filter (fun x => key x =? key r) l = [r].
Proof.
  unfold pk_unique. induction l as [|x l IH]; simpl; intros Hnd Hin; [easy|].
  inversion Hnd as [|? ? Hnotin Hnd']; subst.
  destruct Hin as [->|Hin].
  - rewrite String.eqb_refl. f_equal. apply filter_nothing.
    intros y Hy. apply String.eqb_neq. intros Heq. apply Hnotin.
    rewrite <- Heq. now apply in_map.
  - destruct (String.eqb_spec (key x) (key r)) as [Heq|_].
    + exfalso. apply Hnotin. rewrite Heq. now apply in_map.
    + now apply IH.
Qed.

Lemma first_in {A} (l : list A) (r : A) : first l = Some r -> In r l.
Proof. destruct l; simpl; intros H; [discriminate|]. injection H as ->. now left. Qed.

(** ** The identity gate and the ownership resolver *)

Lemma requireUser_some context u w :
  locals_user context = Some u -> requireUser context w = (Ok u, w).
Proof. intros H. unfold requireUser. now rewrite H. Qed.

Lemma requireUser_none context w :
  locals_user context = None -> requireUser context w = (Throw unauthorized, w).
Proof. intros H. unfold requireUser. now rewrite H. Qed.

Lemma requireUser_inv context u w w' :
  requireUser context w = (Ok u, w') -> locals_user context = Some u /\ w' = w.
Proof.
  unfold requireUser. destruct (locals_user context); cbn; intros H.
  - now inversion H.
  - discriminate.
Qed.

(** The resolver sends one SELECT and never writes. *)
Lemma getOwnedPalette_world paletteId userId w :
  snd (getOwnedPalette paletteId userId w) = logged (SELECT TColorPalettes) w.
Proof.
  unfold getOwnedPalette, bind, db.select_palettes.
  destruct (filter _ (palettes w)) as [|p rest]; [reflexivity|].
  destruct (negb _ && negb _); reflexivity.
Qed.

Lemma getOwnedPalette_absent paletteId userId w :
  (forall p, In p (palettes w) -> ColorPalettes.id p <> paletteId) ->
  getOwnedPalette paletteId userId w
  = (Throw not_found_palette, logged (SELECT TColorPalettes) w).
Proof.
  intros H. unfold getOwnedPalette, bind, db.select_palettes.
  rewrite filter_nothing; [reflexivity|].
  intros p Hp. apply String.eqb_neq. now apply H.
Qed.

Lemma getOwnedPalette_present paletteId userId w p :
  pk_unique ColorPalettes.id (palettes w) ->
  In p (palettes w) -> ColorPalettes.id p = paletteId ->
  getOwnedPalette paletteId userId w
  = (if negb (ColorPalettes.userId p =? userId) && negb (ColorPalettes.isSystem p)
     then Throw forbidden else Ok p,
     logged (SELECT TColorPalettes) w).
Proof.
  intros Hpk Hin <-. unfold getOwnedPalette, bind, db.select_palettes.
  rewrite (filter_key_unique ColorPalettes.id (palettes w) p Hpk Hin).
  destruct (negb _ && negb _); reflexivity.
Qed.

Lemma getOwnedPalette_stranger paletteId userId w p :
  pk_unique ColorPalettes.id (palettes w) ->
  In p (palettes w) -> ColorPalettes.id p = paletteId ->
  ColorPalettes.userId p <> userId -> ColorPalettes.isSystem p = false ->
  getOwnedPalette paletteId userId w
  = (Throw forbidden, logged (SELECT TColorPalettes) w).
Proof.
  intros Hpk Hin Hid Hu Hs.
  rewrite (getOwnedPalette_present paletteId userId w p Hpk Hin Hid).
  apply String.eqb_neq in Hu. now rewrite Hu, Hs.
Qed.

Lemma getOwnedPalette_granted paletteId userId w p :
  pk_unique ColorPalettes.id (palettes w) ->
  In p (palettes w) -> ColorPalettes.id p = paletteId ->
  ColorPalettes.userId p = userId \/ ColorPalettes.isSystem p = true ->
  getOwnedPalette paletteId userId w = (Ok p, logged (SELECT TColorPalettes) w).
Proof.
  intros Hpk Hin Hid Hor.
  rewrite (getOwnedPalette_present paletteId userId w p Hpk Hin Hid).
  destruct Hor as [<- | ->].
  - now rewrite String.eqb_refl.
  - now rewrite andb_false_r.
Qed.

(** What a successful resolution tells, whatever the table holds. *)
Lemma getOwnedPalette_inv paletteId userId w p w' :
  getOwnedPalette paletteId userId w = (Ok p, w') ->
  w' = logged (SELECT TColorPalettes) w
  /\ first (filter (fun q => ColorPalettes.id q =? paletteId) (palettes w)) = Some p
  /\ In p (palettes w) /\ ColorPalettes.id p = paletteId
  /\ (ColorPalettes.userId p = userId \/ ColorPalettes.isSystem p = true).
Proof.
  unfold getOwnedPalette, bind, db.select_palettes.
  destruct (filter _ (palettes w)) as [|q rest] eqn:Hf; [discriminate|].
  assert (Hq : In q (filter (fun q => ColorPalettes.id q =? paletteId) (palettes w)))
    by (rewrite Hf; now left).
  apply filter_In in Hq. destruct Hq as [Hin Hid]. apply String.eqb_eq in Hid.
  destruct (String.eqb_spec (ColorPalettes.userId q) userId) as [Hu|Hu];
    destruct (ColorPalettes.isSystem q) eqn:Hs; cbn; intros H;
    try discriminate; inversion H; subst; auto 6.
Qed.

Lemma may_act_on_resolves w callerId paletteId :
  pk_unique ColorPalettes.id (palettes w) ->
  may_act_on w callerId paletteId ->
  exists p, getOwnedPalette paletteId callerId w
            = (Ok p, logged (SELECT TColorPalettes) w).
Proof.
  intros Hpk (p & Hin & Hid & Hor). exists p.
  now apply getOwnedPalette_granted.
Qed.

(** ** Claims about the gate and the resolver *)

(** C1. The ownership resolver [getOwnedPalette paletteId callerId]:
    when no palette row has the id [paletteId] it fails with NOT_FOUND;
    when the palette with that id has a [userId] other than [callerId]
    and is not a system palette it fails with FORBIDDEN; in every other
    case it returns that palette row.  The palette with the id is the
    one the primary key singles out. *)
Theorem getOwnedPalette_outcome (paletteId callerId : string) (w : World) :
  ((forall p, In p (palettes w) -> ColorPalettes.id p <> paletteId) ->
   fst (getOwnedPalette paletteId callerId w) = Throw not_found_palette)
  /\ (pk_unique ColorPalettes.id (palettes w) ->
      forall p, In p (palettes w) -> ColorPalettes.id p = paletteId ->
        (ColorPalettes.userId p <> callerId /\ ColorPalettes.isSystem p = false ->
         fst (getOwnedPalette paletteId callerId w) = Throw forbidden)
        /\ (~ (ColorPalettes.userId p <> callerId
               /\ ColorPalettes.isSystem p = false) ->
            fst (getOwnedPalette paletteId callerId w) = Ok p)).
Proof.
  split.
  - intros Habsent. now rewrite getOwnedPalette_absent.
  - intros Hpk p Hin Hid. split.
    + intros [Hu Hs]. now rewrite (getOwnedPalette_stranger paletteId callerId w p).
    + intros Hnot. rewrite (getOwnedPalette_granted paletteId callerId w p); auto.
      destruct (String.eqb_spec (ColorPalettes.userId p) callerId) as [Hu|Hu];
        [now left|].
      destruct (ColorPalettes.isSystem p) eqn:Hs; [now right|].
      exfalso. apply Hnot. now split.
Qed.

Lemma demo_pk_palettes : pk_unique ColorPalettes.id (palettes Demo.world).
Proof.
  unfold pk_unique. cbn.
  repeat constructor; cbn; intuition discriminate.
Qed.

Lemma getOwnedPalette_outcome_witness :
  fst (getOwnedPalette "p9" "alice" Demo.world) = Throw not_found_palette
  /\ fst (getOwnedPalette "p1" "mallory" Demo.world) = Throw forbidden
  /\ fst (getOwnedPalette "p1" "alice" Demo.world) = Ok Demo.sunset
  /\ fst (getOwnedPalette "p0" "mallory" Demo.world) = Ok Demo.curated.
Proof.
  assert (Hsunset : In Demo.sunset (palettes Demo.world)) by (cbn; tauto).
  assert (Hcurated : In Demo.curated (palettes Demo.world)) by (cbn; tauto).
  split; [|split; [|split]].
  - apply (proj1 (getOwnedPalette_outcome "p9" "alice" Demo.world)).
    cbn. intros p [<-|[<-|[<-|[]]]]; discriminate.
  - apply (proj2 (getOwnedPalette_outcome "p1" "mallory" Demo.world)
                 demo_pk_palettes Demo.sunset Hsunset eq_refl).
    split; [discriminate | reflexivity].
  - apply (proj2 (getOwnedPalette_outcome "p1" "alice" Demo.world)
                 demo_pk_palettes Demo.sunset Hsunset eq_refl).
    intros [Hu _]. now apply Hu.
  - apply (proj2 (getOwnedPalette_outcome "p0" "mallory" Demo.world)
                 demo_pk_palettes Demo.curated Hcurated eq_refl).
    intros [_ Hs]. discriminate.
Defined.

(** C6. Each of the seven handlers, run with a context that carries no
    user, throws UNAUTHORIZED and leaves the world as it found it: the
    statement log is the same, so no statement was sent to the store,
    and the resolver, which sends one, did not run. *)
Theorem unauthenticated_call_stops_at_gate
        (context : ActionAPIContext) (w : World) :
  locals_user context = None ->
  (forall i, createPalette.handler i context w = (Throw unauthorized, w))
  /\ (forall i, updatePalette.handler i context w = (Throw unauthorized, w))
  /\ (forall i, listPalettes.handler i context w = (Throw unauthorized, w))
  /\ (forall i, createPaletteColor.handler i context w = (Throw unauthorized, w))
  /\ (forall i, updatePaletteColor.handler i context w = (Throw unauthorized, w))
  /\ (forall i, deletePaletteColor.handler i context w = (Throw unauthorized, w))
  /\ (forall i, listPaletteColors.handler i context w = (Throw unauthorized, w)).
Proof.
  intros Hnone. pose proof (requireUser_none context w Hnone) as Hgate.
  repeat split; intros i;
    [ unfold createPalette.handler | unfold updatePalette.handler
    | unfold listPalettes.handler | unfold createPaletteColor.handler
    | unfold updatePaletteColor.handler | unfold deletePaletteColor.handler
    | unfold listPaletteColors.handler ];
    now apply bind_throw.
Qed.

Lemma unauthenticated_call_stops_at_gate_witness :
  locals_user Demo.anonymous = None
  /\ deletePaletteColor.handler (deletePaletteColor.mk "c1" "p1")
                                Demo.anonymous Demo.world
     = (Throw unauthorized, Demo.world).
Proof.
  split; [reflexivity|].
  apply (unauthenticated_call_stops_at_gate Demo.anonymous Demo.world eq_refl).
Defined.

(** ** Claims about who may write *)

Ltac gate Hu := rewrite (bind_ok _ _ _ _ _ (requireUser_some _ _ _ Hu)).

(** C2, as it is written, fails: mallory is not the owner of the seeded
    system palette [p0], and her [updatePalette] call succeeds and
    rewrites the row. *)
Lemma updatePalette_by_stranger_on_system_palette :
  locals_user (Demo.signed_in Demo.mallory) = Some Demo.mallory
  /\ In Demo.curated (palettes Demo.world)
  /\ ColorPalettes.id Demo.curated = updatePalette.id Demo.rename_curated
  /\ ColorPalettes.userId Demo.curated <> user_id Demo.mallory
  /\ fst (updatePalette.handler Demo.rename_curated
                                (Demo.signed_in Demo.mallory) Demo.world)
     = Ok (Some Demo.renamed)
  /\ palettes (snd (updatePalette.handler Demo.rename_curated
                       (Demo.signed_in Demo.mallory) Demo.world))
     = [Demo.renamed; Demo.sunset; Demo.dusk]
  /\ Demo.renamed <> Demo.curated.
Proof.
  repeat split; try reflexivity.
  - now left.
  - discriminate.
  - discriminate.
Qed.

(** C2, amended.  An [updatePalette] call by a caller who is not the
    stored [userId] of the addressed palette fails with FORBIDDEN, and
    leaves both tables as they were, when that palette is not a system
    palette. *)
Theorem updatePalette_by_stranger_forbidden
        (i : updatePalette.input) (context : ActionAPIContext) (w : World)
        (u : User) (p : Palette) :
  locals_user context = Some u ->
  pk_unique ColorPalettes.id (palettes w) ->
  In p (palettes w) -> ColorPalettes.id p = updatePalette.id i ->
  ColorPalettes.userId p <> user_id u ->
  ColorPalettes.isSystem p = false ->
  fst (updatePalette.handler i context w) = Throw forbidden
  /\ palettes (snd (updatePalette.handler i context w)) = palettes w
  /\ colors (snd (updatePalette.handler i context w)) = colors w.
Proof.
  intros Hu Hpk Hin Hid Hother Hsys.
  unfold updatePalette.handler. gate Hu.
  rewrite (bind_throw _ _ _ _ _
             (getOwnedPalette_stranger _ _ _ _ Hpk Hin Hid Hother Hsys)).
  now repeat split.
Qed.

Lemma updatePalette_by_stranger_forbidden_witness :
  fst (updatePalette.handler
         (updatePalette.mk "p1" (Some "Mine now") None None None None)
         (Demo.signed_in Demo.mallory) Demo.world) = Throw forbidden
  /\ palettes (snd (updatePalette.handler
                      (updatePalette.mk "p1" (Some "Mine now") None None None None)
                      (Demo.signed_in Demo.mallory) Demo.world))
     = palettes Demo.world
  /\ colors (snd (updatePalette.handler
                    (updatePalette.mk "p1" (Some "Mine now") None None None None)
                    (Demo.signed_in Demo.mallory) Demo.world))
     = colors Demo.world.
Proof.
  apply (updatePalette_by_stranger_forbidden
           (updatePalette.mk "p1" (Some "Mine now") None None None None)
           (Demo.signed_in Demo.mallory) Demo.world Demo.mallory Demo.sunset).
  - reflexivity.
  - exact demo_pk_palettes.
  - cbn; tauto.
  - reflexivity.
  - discriminate.
  - reflexivity.
Defined.

(** C3. The caller may act on the palette named [paletteId], and no color
    row has both the id [colorId] and that [paletteId] (the row with the
    id sits under another palette, or there is none).  Then
    [updatePaletteColor] and [deletePaletteColor] called with the two ids
    fail with NOT_FOUND, and the color table is what it was. *)
Theorem color_of_other_palette_not_found
        (context : ActionAPIContext) (w : World) (u : User)
        (colorId paletteId : string) :
  locals_user context = Some u ->
  pk_unique ColorPalettes.id (palettes w) ->
  may_act_on w (user_id u) paletteId ->
  ~ color_under w colorId paletteId ->
  (forall i, updatePaletteColor.id i = colorId ->
             updatePaletteColor.paletteId i = paletteId ->
     fst (updatePaletteColor.handler i context w) = Throw not_found_color
     /\ colors (snd (updatePaletteColor.handler i context w)) = colors w)
  /\ (forall d, deletePaletteColor.id d = colorId ->
                deletePaletteColor.paletteId d = paletteId ->
     fst (deletePaletteColor.handler d context w) = Throw not_found_color
     /\ colors (snd (deletePaletteColor.handler d context w)) = colors w).
Proof.
  intros Hu Hpk Hmay Hnone.
  destruct (may_act_on_resolves _ _ _ Hpk Hmay) as [p Hres].
  assert (Hmiss : forall c, In c (colors w) ->
            (PaletteColors.id c =? colorId)
            && (PaletteColors.paletteId c =? paletteId) = false).
  { intros c Hc. apply andb_false_iff.
    destruct (String.eqb_spec (PaletteColors.id c) colorId) as [Hi|Hi];
      [|now left].
    destruct (String.eqb_spec (PaletteColors.paletteId c) paletteId) as [Hp|Hp];
      [|now right].
    exfalso. apply Hnone. now exists c. }
  split.
  - intros i <- <-. unfold updatePaletteColor.handler. gate Hu.
    rewrite (bind_ok _ _ _ _ _ Hres).
    unfold bind, db.select_colors. cbn [colors logged].
    rewrite (filter_nothing _ _ Hmiss). now split.
  - intros d <- <-. unfold deletePaletteColor.handler. gate Hu.
    rewrite (bind_ok _ _ _ _ _ Hres).
    unfold bind, db.delete_colors. cbn [colors logged].
    rewrite (filter_nothing _ _ Hmiss). cbn. split; [reflexivity|].
    apply filter_everything. intros c Hc. now rewrite (Hmiss c Hc).
Qed.

Lemma color_of_other_palette_not_found_witness :
  (fst (updatePaletteColor.handler Demo.recolor_elsewhere
          (Demo.signed_in Demo.alice) Demo.world) = Throw not_found_color
   /\ colors (snd (updatePaletteColor.handler Demo.recolor_elsewhere
                     (Demo.signed_in Demo.alice) Demo.world))
      = colors Demo.world)
  /\ (fst (deletePaletteColor.handler (deletePaletteColor.mk "c1" "p2")
             (Demo.signed_in Demo.alice) Demo.world) = Throw not_found_color
      /\ colors (snd (deletePaletteColor.handler (deletePaletteColor.mk "c1" "p2")
                        (Demo.signed_in Demo.alice) Demo.world))
         = colors Demo.world).
Proof.
  assert (H : locals_user (Demo.signed_in Demo.alice) = Some Demo.alice
              /\ pk_unique ColorPalettes.id (palettes Demo.world)
              /\ may_act_on Demo.world (user_id Demo.alice) "p2"
              /\ ~ color_under Demo.world "c1" "p2").
  { split; [reflexivity|]. split; [exact demo_pk_palettes|]. split.
    - exists Demo.dusk. cbn. tauto.
    - intros (c & Hc & Hid & Hpid). cbn in Hc.
      destruct Hc as [<-|[<-|[]]]; discriminate. }
  destruct H as (H1 & H2 & H3 & H4).
  destruct (color_of_other_palette_not_found
              (Demo.signed_in Demo.alice) Demo.world Demo.alice "c1" "p2"
              H1 H2 H3 H4) as [Hupd Hdel].
  split.
  - now apply Hupd.
  - now apply Hdel.
Defined.

(** ** Claims about the palette operations *)

(** C4. A [createPalette] call that succeeds returns the row it stored:
    [isSystem] is false whatever the input, [isFavorite] is the input's
    value, or false without one, the id is the one the UUID source
    yielded for this call and no stored row had it, and [createdAt]
    equals [updatedAt]. *)
Theorem createPalette_record
        (i : createPalette.input) (context : ActionAPIContext)
        (w w' : World) (r : option Palette) :
  createPalette.handler i context w = (Ok r, w') ->
  exists p,
    r = Some p
    /\ palettes w' = (palettes w ++ [p])%list
    /\ ColorPalettes.isSystem p = false
    /\ ColorPalettes.isFavorite p
       = match createPalette.isFavorite i with Some b => b | None => false end
    /\ ColorPalettes.id p = uuid_source w (uuid_calls w)
    /\ uuid_calls w' = S (uuid_calls w)
    /\ (forall q, In q (palettes w) -> ColorPalettes.id q <> ColorPalettes.id p)
    /\ ColorPalettes.createdAt p = ColorPalettes.updatedAt p.
Proof.
  unfold createPalette.handler. intros H.
  apply bind_ok_inv in H as (u & w1 & Hgate & H).
  apply requireUser_inv in Hgate as [_ ->].
  unfold bind, new_Date, randomUUID, db.insert_palette in H.
  cbn [palettes colors db_log uuid_source uuid_calls clock clock_reads logged
       ColorPalettes.id] in H.
  destruct (existsb _ (palettes w)) eqn:Hdup; [discriminate|].
  cbn in H. inversion H; subst; clear H.
  eexists. repeat split; try reflexivity.
  intros q Hq Heq. cbn in Heq.
  assert (Hex : existsb (fun p => ColorPalettes.id p =? uuid_source w (uuid_calls w))
                        (palettes w) = true).
  { apply existsb_exists. exists q. split; [exact Hq|]. now apply String.eqb_eq. }
  rewrite Hex in Hdup. discriminate.
Qed.

Lemma createPalette_record_witness :
  exists p,
    Some Demo.ocean = Some p
    /\ palettes (snd (createPalette.handler Demo.new_ocean
                        (Demo.signed_in Demo.alice) Demo.world))
       = (palettes Demo.world ++ [p])%list
    /\ ColorPalettes.isSystem p = false
    /\ ColorPalettes.isFavorite p
       = match createPalette.isFavorite Demo.new_ocean with
         | Some b => b | None => false end
    /\ ColorPalettes.id p = uuid_source Demo.world (uuid_calls Demo.world)
    /\ uuid_calls (snd (createPalette.handler Demo.new_ocean
                          (Demo.signed_in Demo.alice) Demo.world))
       = S (uuid_calls Demo.world)
    /\ (forall q, In q (palettes Demo.world) ->
                  ColorPalettes.id q <> ColorPalettes.id p)
    /\ ColorPalettes.createdAt p = ColorPalettes.updatedAt p.
Proof.
  apply (createPalette_record Demo.new_ocean (Demo.signed_in Demo.alice)
           Demo.world
           (snd (createPalette.handler Demo.new_ocean
                   (Demo.signed_in Demo.alice) Demo.world))
           (Some Demo.ocean)).
  reflexivity.
Defined.

Lemma Forall2_map_right {A} (R : A -> A -> Prop) (f : A -> A) (l : list A) :
  (forall x, In x l -> R x (f x)) -> Forall2 R l (map f l).
Proof.
  induction l as [|x l IH]; intros H; cbn; constructor.
  - apply H. now left.
  - apply IH. intros y Hy. apply H. now right.
Qed.

Lemma first_map {A B} (f : A -> B) (l : list A) :
  first (map f l) = option_map f (first l).
Proof. now destruct l. Qed.

Lemma getOwnedPalette_eq paletteId userId w :
  getOwnedPalette paletteId userId w
  = (match first (filter (fun q => ColorPalettes.id q =? paletteId) (palettes w)) with
     | None => Throw not_found_palette
     | Some p =>
         if negb (ColorPalettes.userId p =? userId)
            && negb (ColorPalettes.isSystem p)
         then Throw forbidden else Ok p
     end, logged (SELECT TColorPalettes) w).
Proof.
  unfold getOwnedPalette, bind, db.select_palettes.
  destruct (filter _ (palettes w)) as [|p rest]; cbn [first]; [reflexivity|].
  destruct (negb _ && negb _); reflexivity.
Qed.

(** The set object of [updatePalette] is never empty: it has [updatedAt]. *)
Lemma updatePalette_set_not_empty n d st sr f t :
  db.palette_set_empty (db.mkPaletteSet n d st sr f (Some t)) = false.
Proof.
  unfold db.palette_set_empty. cbn. now rewrite !orb_true_r.
Qed.

Lemma updatePalette_handler_inv i context w res w' :
  updatePalette.handler i context w = (Ok res, w') ->
  exists u p,
    locals_user context = Some u
    /\ first (filter (fun q => ColorPalettes.id q =? updatePalette.id i) (palettes w))
       = Some p
    /\ (ColorPalettes.userId p = user_id u \/ ColorPalettes.isSystem p = true)
    /\ res = Some (db.apply_palette_set
                     (db.mkPaletteSet (updatePalette.name i)
                        (updatePalette.description i) (updatePalette.sourceType i)
                        (updatePalette.sourceReference i) (updatePalette.isFavorite i)
                        (Some (clock w (clock_reads w)))) p)
    /\ palettes w'
       = map (fun q => if ColorPalettes.id q =? updatePalette.id i
                       then db.apply_palette_set
                              (db.mkPaletteSet (updatePalette.name i)
                                 (updatePalette.description i)
                                 (updatePalette.sourceType i)
                                 (updatePalette.sourceReference i)
                                 (updatePalette.isFavorite i)
                                 (Some (clock w (clock_reads w)))) q
                       else q) (palettes w)
    /\ colors w' = colors w
    /\ clock w' = clock w /\ clock_reads w' = S (clock_reads w).
Proof.
  unfold updatePalette.handler. intros H.
  apply bind_ok_inv in H as (u & w1 & Hgate & H).
  apply requireUser_inv in Hgate as [Hu ->].
  apply bind_ok_inv in H as (p & w1 & Hres & H).
  apply getOwnedPalette_inv in Hres as (-> & Hfirst & _ & _ & Hor).
  unfold bind, new_Date, db.update_palettes in H.
  cbn [palettes colors db_log uuid_source uuid_calls clock clock_reads logged] in H.
  rewrite updatePalette_set_not_empty in H. cbn in H.
  inversion H; subst; clear H.
  exists u, p. rewrite first_map, Hfirst. cbn. auto 10.
Qed.

Lemma apply_palette_set_patched (r : updatePalette.input) (t : Date) (p : Palette) :
  palette_patched r t p
    (db.apply_palette_set
       (db.mkPaletteSet (updatePalette.name r) (updatePalette.description r)
          (updatePalette.sourceType r) (updatePalette.sourceReference r)
          (updatePalette.isFavorite r) (Some t)) p).
Proof. unfold palette_patched. cbn. now repeat split. Qed.

(** C5. [updatePalette] with none of name, description, sourceType,
    sourceReference and isFavorite is rejected by the schema, with the
    world untouched (no statement reaches the store).  When the action
    succeeds, the addressed row [p] comes back as [p']: every one of the
    five columns has the request's value where the request has one and
    its prior value where it has none, [updatedAt] is the clock's reading
    during the call, and the table holds the rows so rewritten, every
    other row as it was. *)
Theorem updatePalette_partial_update
        (r : updatePalette.input) (context : ActionAPIContext) (w : World) :
  (updatePalette.name r = None -> updatePalette.description r = None ->
   updatePalette.sourceType r = None -> updatePalette.sourceReference r = None ->
   updatePalette.isFavorite r = None ->
   server.updatePalette r context w = (Throw ActionInputError, w))
  /\ (forall res w',
        server.updatePalette r context w = (Ok res, w') ->
        exists p p',
          res = Some p'
          /\ In p (palettes w)
          /\ ColorPalettes.id p = updatePalette.id r
          /\ palette_patched r (clock w (clock_reads w)) p p'
          /\ Forall2 (fun q q' =>
                        if ColorPalettes.id q =? updatePalette.id r
                        then palette_patched r (clock w (clock_reads w)) q q'
                        else q' = q)
                     (palettes w) (palettes w')).
Proof.
  split.
  - intros Hn Hd Hst Hsr Hf. apply defineAction_rejects.
    unfold updatePalette.schema. rewrite Hn, Hd, Hst, Hsr, Hf. cbn.
    now rewrite andb_false_r.
  - intros res w' H. unfold server.updatePalette, defineAction in H.
    unfold updatePalette.schema in H.
    destruct (min1 _ && _); [|discriminate].
    apply updatePalette_handler_inv in H
      as (u & p & _ & Hfirst & _ & -> & Hstore & _).
    apply first_in, filter_In in Hfirst as [Hin Hid].
    apply String.eqb_eq in Hid.
    eexists p, _. split; [reflexivity|].
    split; [exact Hin|]. split; [exact Hid|].
    split; [apply apply_palette_set_patched|].
    rewrite Hstore. apply Forall2_map_right. intros q _.
    destruct (ColorPalettes.id q =? updatePalette.id r); [|reflexivity].
    apply apply_palette_set_patched.
Qed.

Lemma updatePalette_partial_update_witness :
  server.updatePalette Demo.touch_sunset (Demo.signed_in Demo.alice) Demo.world
  = (Throw ActionInputError, Demo.world)
  /\ exists p p',
      Some Demo.sunset_favored = Some p'
      /\ In p (palettes Demo.world)
      /\ ColorPalettes.id p = "p1"
      /\ palette_patched Demo.favor_sunset 2000%Z p p'
      /\ Forall2 (fun q q' =>
                    if ColorPalettes.id q =? "p1"
                    then palette_patched Demo.favor_sunset 2000%Z q q'
                    else q' = q)
                 (palettes Demo.world)
                 (palettes (snd (server.updatePalette Demo.favor_sunset
                                   (Demo.signed_in Demo.alice) Demo.world))).
Proof.
  split.
  - apply (proj1 (updatePalette_partial_update Demo.touch_sunset
                    (Demo.signed_in Demo.alice) Demo.world)); reflexivity.
  - apply (proj2 (updatePalette_partial_update Demo.favor_sunset
                    (Demo.signed_in Demo.alice) Demo.world)
                 (Some Demo.sunset_favored)
                 (snd (server.updatePalette Demo.favor_sunset
                         (Demo.signed_in Demo.alice) Demo.world))).
    reflexivity.
Defined.

(** C7. For a signed-in caller [listPalettes] returns the stored
    palettes that the caller owns or that are system palettes, and with
    [favoritesOnly] those of them that are favorites: a row is among the
    items exactly when it is stored and meets the condition, the items
    are the stored rows meeting it in stored order, and [total] is the
    number of items.  The call leaves both tables as they were. *)
Theorem listPalettes_items
        (i : listPalettes.input) (context : ActionAPIContext) (w : World)
        (u : User) :
  locals_user context = Some u ->
  exists its,
    fst (listPalettes.handler i context w) = Ok (mkListing its (length its))
    /\ (forall p, In p its <->
                  In p (palettes w)
                  /\ listed_for (user_id u) (listPalettes.favoritesOnly i) p)
    /\ its = filter (fun p => ((ColorPalettes.userId p =? user_id u)
                               || ColorPalettes.isSystem p)
                              && (negb (listPalettes.favoritesOnly i)
                                  || ColorPalettes.isFavorite p))
                    (palettes w)
    /\ palettes (snd (listPalettes.handler i context w)) = palettes w
    /\ colors (snd (listPalettes.handler i context w)) = colors w.
Proof.
  intros Hu. unfold listPalettes.handler. gate Hu.
  unfold bind, db.select_palettes, ret. cbn [fst snd palettes colors logged].
  eexists. split; [reflexivity|].
  assert (Hsame : forall p,
    forallb (fun f : Palette -> bool => f p)
      (if listPalettes.favoritesOnly i
       then ([fun p0 : Palette =>
                (ColorPalettes.userId p0 =? user_id u)
                || Bool.eqb (ColorPalettes.isSystem p0) true]
             ++ [fun p0 : Palette => Bool.eqb (ColorPalettes.isFavorite p0) true])%list
       else [fun p0 : Palette =>
               (ColorPalettes.userId p0 =? user_id u)
               || Bool.eqb (ColorPalettes.isSystem p0) true])
    = ((ColorPalettes.userId p =? user_id u) || ColorPalettes.isSystem p)
      && (negb (listPalettes.favoritesOnly i) || ColorPalettes.isFavorite p)).
  { intros p. destruct (listPalettes.favoritesOnly i); cbn;
      destruct (ColorPalettes.userId p =? user_id u);
      destruct (ColorPalettes.isSystem p);
      destruct (ColorPalettes.isFavorite p); reflexivity. }
  split; [|split; [|split; reflexivity]].
  - intros p. rewrite filter_In, Hsame. unfold listed_for.
    rewrite andb_true_iff, !orb_true_iff, negb_true_iff, String.eqb_eq.
    destruct (listPalettes.favoritesOnly i); intuition congruence.
  - apply filter_ext. exact Hsame.
Qed.

Lemma listPalettes_items_witness :
  locals_user (Demo.signed_in Demo.alice) = Some Demo.alice
  /\ exists its,
      fst (listPalettes.handler (listPalettes.mk true)
             (Demo.signed_in Demo.alice) Demo.world)
      = Ok (mkListing its (length its))
      /\ (forall p, In p its <->
                    In p (palettes Demo.world) /\ listed_for "alice" true p)
      /\ its = filter (fun p => ((ColorPalettes.userId p =? "alice")
                                 || ColorPalettes.isSystem p)
                                && (negb true || ColorPalettes.isFavorite p))
                      (palettes Demo.world)
      /\ palettes (snd (listPalettes.handler (listPalettes.mk true)
                          (Demo.signed_in Demo.alice) Demo.world))
         = palettes Demo.world
      /\ colors (snd (listPalettes.handler (listPalettes.mk true)
                        (Demo.signed_in Demo.alice) Demo.world))
         = colors Demo.world.
Proof.
  split; [reflexivity|].
  apply (listPalettes_items (listPalettes.mk true) (Demo.signed_in Demo.alice)
           Demo.world Demo.alice eq_refl).
Defined.

Example listPalettes_favorites_of_alice :
  fst (listPalettes.handler (listPalettes.mk true)
         (Demo.signed_in Demo.alice) Demo.world)
  = Ok (mkListing [Demo.dusk] 1).
Proof. reflexivity. Qed.

(** ** What a call can do to the tables *)

Arguments getOwnedPalette : simpl never.

Ltac run_handler :=
  unfold createPalette.handler, updatePalette.handler, listPalettes.handler,
    createPaletteColor.handler, updatePaletteColor.handler,
    deletePaletteColor.handler, listPaletteColors.handler,
    bind, requireUser, throw, ret, new_Date, randomUUID,
    db.select_palettes, db.select_colors, db.insert_palette, db.insert_color,
    db.update_palettes, db.update_colors, db.delete_colors.

Lemma palettes_after (c : Call) (context : ActionAPIContext) (w : World) :
  palettes (world_after c context w) = palettes w
  \/ (exists v, palettes (world_after c context w) = (palettes w ++ [v])%list
                /\ ColorPalettes.isSystem v = false
                /\ forall q, In q (palettes w) ->
                             ColorPalettes.id q <> ColorPalettes.id v)
  \/ (exists s k, palettes (world_after c context w)
                  = map (fun q => if ColorPalettes.id q =? k
                                  then db.apply_palette_set s q else q)
                        (palettes w)).
Proof.
  destruct c as [i|i|i|i|i|i|i]; unfold world_after.
  - unfold createPalette.handler, bind, requireUser.
    destruct (locals_user context) as [u|]; [|now left].
    cbn. unfold db.insert_palette. cbn.
    destruct (existsb _ (palettes w)) eqn:Hdup; [now left|].
    right; left. eexists. split; [reflexivity|]. split; [reflexivity|].
    intros q Hq Heq. cbn in Heq.
    assert (Hex : existsb (fun p => ColorPalettes.id p =? uuid_source w (uuid_calls w))
                          (palettes w) = true).
    { apply existsb_exists. exists q. split; [exact Hq|]. now apply String.eqb_eq. }
    rewrite Hex in Hdup. discriminate.
  - unfold updatePalette.handler, bind, requireUser.
    destruct (locals_user context) as [u|]; [|now left].
    cbn. rewrite getOwnedPalette_eq.
    destruct (first _) as [p|]; [|now left].
    destruct (negb _ && negb _); [now left|].
    cbn. unfold db.update_palettes. rewrite updatePalette_set_not_empty. cbn.
    right; right. eexists _, _. reflexivity.
  - left. run_handler. destruct (locals_user context); reflexivity.
  - left. unfold createPaletteColor.handler, bind, requireUser.
    destruct (locals_user context) as [u|]; [|reflexivity].
    cbn. rewrite getOwnedPalette_eq.
    destruct (first _) as [p|]; [|reflexivity].
    destruct (negb _ && negb _); [reflexivity|].
    cbn. unfold db.insert_color. cbn.
    destruct (existsb _ (colors w)); reflexivity.
  - left. unfold updatePaletteColor.handler, bind, requireUser.
    destruct (locals_user context) as [u|]; [|reflexivity].
    cbn. rewrite getOwnedPalette_eq.
    destruct (first _) as [p|]; [|reflexivity].
    destruct (negb _ && negb _); [reflexivity|].
    cbn. destruct (first _); [|reflexivity].
    unfold db.update_colors. destruct (db.color_set_empty _); reflexivity.
  - left. unfold deletePaletteColor.handler, bind, requireUser.
    destruct (locals_user context) as [u|]; [|reflexivity].
    cbn. rewrite getOwnedPalette_eq.
    destruct (first _) as [p|]; [|reflexivity].
    destruct (negb _ && negb _); [reflexivity|].
    cbn. destruct (Nat.eqb _ 0); reflexivity.
  - left. unfold listPaletteColors.handler, bind, requireUser.
    destruct (locals_user context) as [u|]; [|reflexivity].
    cbn. rewrite getOwnedPalette_eq.
    destruct (first _) as [p|]; [|reflexivity].
    destruct (negb _ && negb _); reflexivity.
Qed.

Lemma colors_after (c : Call) (context : ActionAPIContext) (w : World) :
  colors (world_after c context w) = colors w
  \/ (exists v, colors (world_after c context w) = (colors w ++ [v])%list
                /\ forall q, In q (colors w) ->
                             PaletteColors.id q <> PaletteColors.id v)
  \/ (exists s k, colors (world_after c context w)
                  = map (fun q => if PaletteColors.id q =? k
                                  then db.apply_color_set s q else q)
                        (colors w))
  \/ (exists keep, colors (world_after c context w) = filter keep (colors w)).
Proof.
  destruct c as [i|i|i|i|i|i|i]; unfold world_after.
  - left. unfold createPalette.handler, bind, requireUser.
    destruct (locals_user context) as [u|]; [|reflexivity].
    cbn. unfold db.insert_palette. cbn.
    destruct (existsb _ (palettes w)); reflexivity.
  - left. unfold updatePalette.handler, bind, requireUser.
    destruct (locals_user context) as [u|]; [|reflexivity].
    cbn. rewrite getOwnedPalette_eq.
    destruct (first _) as [p|]; [|reflexivity].
    destruct (negb _ && negb _); [reflexivity|].
    cbn. unfold db.update_palettes. rewrite updatePalette_set_not_empty.
    reflexivity.
  - left. run_handler. destruct (locals_user context); reflexivity.
  - unfold createPaletteColor.handler, bind, requireUser.
    destruct (locals_user context) as [u|]; [|now left].
    cbn. rewrite getOwnedPalette_eq.
    destruct (first _) as [p|]; [|now left].
    destruct (negb _ && negb _); [now left|].
    cbn. unfold db.insert_color. cbn.
    destruct (existsb _ (colors w)) eqn:Hdup; [now left|].
    right; left. eexists. split; [reflexivity|].
    intros q Hq Heq. cbn in Heq.
    assert (Hex : existsb (fun c => PaletteColors.id c =? uuid_source w (uuid_calls w))
                          (colors w) = true).
    { apply existsb_exists. exists q. split; [exact Hq|]. now apply String.eqb_eq. }
    rewrite Hex in Hdup. discriminate.
  - unfold updatePaletteColor.handler, bind, requireUser.
    destruct (locals_user context) as [u|]; [|now left].
    cbn. rewrite getOwnedPalette_eq.
    destruct (first _) as [p|]; [|now left].
    destruct (negb _ && negb _); [now left|].
    cbn. destruct (first _); [|now left].
    unfold db.update_colors. destruct (db.color_set_empty _); [now left|].
    right; right; left. eexists _, _. reflexivity.
  - unfold deletePaletteColor.handler, bind, requireUser.
    destruct (locals_user context) as [u|]; [|now left].
    cbn. rewrite getOwnedPalette_eq.
    destruct (first _) as [p|]; [|now left].
    destruct (negb _ && negb _); [now left|].
    cbn. right; right; right. eexists.
    destruct (Nat.eqb _ 0); reflexivity.
  - left. unfold listPaletteColors.handler, bind, requireUser.
    destruct (locals_user context) as [u|]; [|reflexivity].
    cbn. rewrite getOwnedPalette_eq.
    destruct (first _) as [p|]; [|reflexivity].
    destruct (negb _ && negb _); reflexivity.
Qed.

(** Every call keeps the primary keys. *)
Lemma map_key_rewrite {A} (key : A -> string) (g : A -> A) (l : list A) :
  (forall x, key (g x) = key x) -> map key (map g l) = map key l.
Proof. intros H. rewrite map_map. apply map_ext. exact H. Qed.

Lemma pk_unique_filter {A} (key : A -> string) (f : A -> bool) (l : list A) :
  pk_unique key l -> pk_unique key (filter f l).
Proof.
  unfold pk_unique. induction l as [|x l IH]; cbn; intros H; [constructor|].
  inversion H as [|? ? Hnotin Hnd]; subst.
  destruct (f x); cbn; [constructor|]; auto.
  intros Hin. apply Hnotin. apply in_map_iff in Hin as (y & Hy & Hin).
  apply filter_In in Hin as [Hin _]. apply in_map_iff. now exists y.
Qed.

Lemma pk_unique_append {A} (key : A -> string) (l : list A) (v : A) :
  pk_unique key l -> (forall q, In q l -> key q <> key v) ->
  pk_unique key (l ++ [v]).
Proof.
  unfold pk_unique. intros Hnd Hfresh. rewrite map_app. cbn.
  apply NoDup_app; [exact Hnd | repeat constructor; intros [] |].
  intros k Hk [<-|[]]. apply in_map_iff in Hk as (q & Hq & Hin).
  now apply (Hfresh q Hin).
Qed.

Lemma world_after_pk_unique (c : Call) (context : ActionAPIContext) (w : World) :
  pk_unique ColorPalettes.id (palettes w) ->
  pk_unique PaletteColors.id (colors w) ->
  pk_unique ColorPalettes.id (palettes (world_after c context w))
  /\ pk_unique PaletteColors.id (colors (world_after c context w)).
Proof.
  intros Hp Hc. split.
  - destruct (palettes_after c context w)
      as [-> | [(v & -> & _ & Hfresh) | (s & k & ->)]].
    + exact Hp.
    + now apply pk_unique_append.
    + unfold pk_unique. rewrite map_key_rewrite; [exact Hp|].
      intros x. now destruct (ColorPalettes.id x =? k).
  - destruct (colors_after c context w)
      as [-> | [(v & -> & Hfresh) | [(s & k & ->) | (keep & ->)]]].
    + exact Hc.
    + now apply pk_unique_append.
    + unfold pk_unique. rewrite map_key_rewrite; [exact Hc|].
      intros x. now destruct (PaletteColors.id x =? k).
    + now apply pk_unique_filter.
Qed.

(** ** The update handlers, forwards and backwards *)

Lemma pk_unique_same_key {A} (key : A -> string) (l : list A) (x y : A) :
  pk_unique key l -> In x l -> In y l -> key x = key y -> x = y.
Proof.
  unfold pk_unique. induction l as [|z l IH]; cbn; intros Hnd Hx Hy Hk; [easy|].
  inversion Hnd as [|? ? Hnotin Hnd']; subst.
  destruct Hx as [->|Hx], Hy as [->|Hy]; auto.
  - exfalso. apply Hnotin. rewrite Hk. now apply in_map.
  - exfalso. apply Hnotin. rewrite <- Hk. now apply in_map.
Qed.

Lemma filter_map_commute {A} (f : A -> bool) (g : A -> A) (l : list A) :
  (forall x, f (g x) = f x) -> filter f (map g l) = map g (filter f l).
Proof.
  intros H. induction l as [|x l IH]; cbn; [reflexivity|].
  rewrite H. destruct (f x); cbn; now rewrite IH.
Qed.

Lemma apply_palette_set_frame s p : palette_frame p (db.apply_palette_set s p).
Proof. now repeat split. Qed.

Lemma apply_color_set_frame s c : color_frame c (db.apply_color_set s c).
Proof. now repeat split. Qed.

Lemma updatePalette_handler_run i context w u p :
  locals_user context = Some u ->
  first (filter (fun q => ColorPalettes.id q =? updatePalette.id i) (palettes w))
  = Some p ->
  ColorPalettes.userId p = user_id u \/ ColorPalettes.isSystem p = true ->
  exists w',
    updatePalette.handler i context w
    = (Ok (Some (db.apply_palette_set (palette_set_of i (clock w (clock_reads w))) p)),
       w')
    /\ palettes w'
       = map (fun q => if ColorPalettes.id q =? updatePalette.id i
                       then db.apply_palette_set
                              (palette_set_of i (clock w (clock_reads w))) q
                       else q) (palettes w)
    /\ colors w' = colors w.
Proof.
  intros Hu Hfirst Hor. unfold updatePalette.handler. gate Hu.
  unfold bind at 1. rewrite getOwnedPalette_eq, Hfirst.
  assert (Hpass : negb (ColorPalettes.userId p =? user_id u)
                  && negb (ColorPalettes.isSystem p) = false).
  { destruct Hor as [-> | ->]; [now rewrite String.eqb_refl|apply andb_false_r]. }
  rewrite Hpass. unfold bind, new_Date, db.update_palettes.
  cbn [palettes colors db_log uuid_source uuid_calls clock clock_reads logged].
  rewrite updatePalette_set_not_empty, first_map, Hfirst. cbn.
  eexists. split; [reflexivity|]. now split.
Qed.

Lemma updatePaletteColor_handler_inv i context w res w' :
  updatePaletteColor.handler i context w = (Ok res, w') ->
  exists u p e,
    locals_user context = Some u
    /\ first (filter (fun q => ColorPalettes.id q =? updatePaletteColor.paletteId i)
                     (palettes w)) = Some p
    /\ (ColorPalettes.userId p = user_id u \/ ColorPalettes.isSystem p = true)
    /\ first (filter (fun c => (PaletteColors.id c =? updatePaletteColor.id i)
                               && (PaletteColors.paletteId c
                                   =? updatePaletteColor.paletteId i))
                     (colors w)) = Some e
    /\ db.color_set_empty (color_set_of i) = false
    /\ res = first (map (db.apply_color_set (color_set_of i))
                        (filter (fun c => PaletteColors.id c =? updatePaletteColor.id i)
                                (colors w)))
    /\ colors w'
       = map (fun c => if PaletteColors.id c =? updatePaletteColor.id i
                       then db.apply_color_set (color_set_of i) c else c)
             (colors w)
    /\ palettes w' = palettes w.
Proof.
  unfold updatePaletteColor.handler. intros H.
  apply bind_ok_inv in H as (u & w1 & Hgate & H).
  apply requireUser_inv in Hgate as [Hu ->].
  apply bind_ok_inv in H as (p & w1 & Hres & H).
  apply getOwnedPalette_inv in Hres as (-> & Hfirst & _ & _ & Hor).
  unfold bind, db.select_colors in H.
  cbn [palettes colors db_log uuid_source uuid_calls clock clock_reads logged] in H.
  destruct (first (filter _ (colors w))) as [e|] eqn:He; [|discriminate].
  unfold db.update_colors in H.
  destruct (db.color_set_empty _) eqn:Hset; [discriminate|].
  cbn in H. inversion H; subst; clear H.
  exists u, p, e. auto 10.
Qed.

Lemma updatePaletteColor_handler_run i context w u p e :
  locals_user context = Some u ->
  first (filter (fun q => ColorPalettes.id q =? updatePaletteColor.paletteId i)
                (palettes w)) = Some p ->
  ColorPalettes.userId p = user_id u \/ ColorPalettes.isSystem p = true ->
  first (filter (fun c => (PaletteColors.id c =? updatePaletteColor.id i)
                          && (PaletteColors.paletteId c
                              =? updatePaletteColor.paletteId i))
                (colors w)) = Some e ->
  db.color_set_empty (color_set_of i) = false ->
  exists w',
    updatePaletteColor.handler i context w
    = (Ok (first (map (db.apply_color_set (color_set_of i))
                      (filter (fun c => PaletteColors.id c =? updatePaletteColor.id i)
                              (colors w)))), w')
    /\ colors w'
       = map (fun c => if PaletteColors.id c =? updatePaletteColor.id i
                       then db.apply_color_set (color_set_of i) c else c)
             (colors w)
    /\ palettes w' = palettes w.
Proof.
  intros Hu Hfirst Hor He Hset. unfold updatePaletteColor.handler. gate Hu.
  unfold bind at 1. rewrite getOwnedPalette_eq, Hfirst.
  assert (Hpass : negb (ColorPalettes.userId p =? user_id u)
                  && negb (ColorPalettes.isSystem p) = false).
  { destruct Hor as [-> | ->]; [now rewrite String.eqb_refl|apply andb_false_r]. }
  rewrite Hpass. unfold bind, db.select_colors.
  cbn [palettes colors db_log uuid_source uuid_calls clock clock_reads logged].
  rewrite He. unfold db.update_colors. rewrite Hset. cbn.
  eexists. split; [reflexivity|]. now split.
Qed.

(** The row the [where] of the color update finds first: the existence
    check on both ids makes sure there is one. *)
Lemma first_by_id_of_first_by_both (cs : list Color) (colorId paletteId : string) e :
  first (filter (fun c => (PaletteColors.id c =? colorId)
                          && (PaletteColors.paletteId c =? paletteId)) cs) = Some e ->
  exists c, first (filter (fun c => PaletteColors.id c =? colorId) cs) = Some c.
Proof.
  intros He. apply first_in, filter_In in He as [Hin Hboth].
  apply andb_true_iff in Hboth as [Hid _].
  destruct (filter (fun c => PaletteColors.id c =? colorId) cs) as [|c rest] eqn:Hf.
  - assert (Hin' : In e (filter (fun c => PaletteColors.id c =? colorId) cs))
      by (apply filter_In; now split).
    rewrite Hf in Hin'. destruct Hin'.
  - now exists c.
Qed.

(** ** Claims about what an update leaves alone *)

(** C9. A successful [updatePaletteColor] keeps [id], [paletteId] and
    [createdAt] of every color row, the returned one among them.  And
    through none of the seven handlers does a color move: under the
    primary key, a row of the table after the call that has the id of a
    row before it has that row's [paletteId]. *)
Theorem updatePaletteColor_frame (context : ActionAPIContext) (w : World) :
  (forall i res w',
      updatePaletteColor.handler i context w = (Ok res, w') ->
      Forall2 color_frame (colors w) (colors w')
      /\ exists c c',
          res = Some c' /\ In c (colors w)
          /\ PaletteColors.id c = updatePaletteColor.id i
          /\ color_frame c c' /\ In c' (colors w'))
  /\ (forall call : Call,
        pk_unique PaletteColors.id (colors w) ->
        forall c c',
          In c (colors w) -> In c' (colors (world_after call context w)) ->
          PaletteColors.id c' = PaletteColors.id c ->
          PaletteColors.paletteId c' = PaletteColors.paletteId c).
Proof.
  split.
  - intros i res w' H.
    apply updatePaletteColor_handler_inv in H
      as (u & p & e & _ & _ & _ & He & _ & -> & Hstore & _).
    split.
    + rewrite Hstore. apply Forall2_map_right. intros c _.
      destruct (PaletteColors.id c =? updatePaletteColor.id i);
        [apply apply_color_set_frame | now repeat split].
    + apply first_by_id_of_first_by_both in He as [c Hc].
      rewrite first_map, Hc. cbn [option_map].
      apply first_in, filter_In in Hc as [Hin Hid].
      exists c, (db.apply_color_set (color_set_of i) c).
      split; [reflexivity|]. split; [exact Hin|].
      split; [now apply String.eqb_eq|].
      split; [apply apply_color_set_frame|].
      rewrite Hstore. apply in_map_iff. exists c. now rewrite Hid.
  - intros call Hpk c c' Hc Hc' Hid.
    destruct (colors_after call context w)
      as [E | [(v & E & Hfresh) | [(s & k & E) | (keep & E)]]];
      rewrite E in Hc'.
    + now rewrite (pk_unique_same_key _ _ c' c Hpk Hc' Hc Hid).
    + apply in_app_or in Hc' as [Hc'|[<-|[]]].
      * now rewrite (pk_unique_same_key _ _ c' c Hpk Hc' Hc Hid).
      * exfalso. now apply (Hfresh c Hc).
    + apply in_map_iff in Hc' as (q & <- & Hq).
      assert (Hqc : q = c).
      { apply (pk_unique_same_key _ _ q c Hpk Hq Hc). rewrite <- Hid.
        now destruct (PaletteColors.id q =? k). }
      subst q. now destruct (PaletteColors.id c =? k).
    + apply filter_In in Hc' as [Hc' _].
      now rewrite (pk_unique_same_key _ _ c' c Hpk Hc' Hc Hid).
Qed.

Lemma demo_pk_colors : pk_unique PaletteColors.id (colors Demo.world).
Proof.
  unfold pk_unique. cbn.
  repeat constructor; cbn; intuition discriminate.
Qed.

Lemma updatePaletteColor_frame_witness :
  (Forall2 color_frame (colors Demo.world)
           (colors (snd (updatePaletteColor.handler Demo.relabel_coral
                           (Demo.signed_in Demo.alice) Demo.world)))
   /\ exists c c',
       Some Demo.coral_relabelled = Some c' /\ In c (colors Demo.world)
       /\ PaletteColors.id c = "c1"
       /\ color_frame c c'
       /\ In c' (colors (snd (updatePaletteColor.handler Demo.relabel_coral
                                (Demo.signed_in Demo.alice) Demo.world))))
  /\ (forall c',
        In c' (colors (world_after (UpdatePaletteColor Demo.relabel_coral)
                                   (Demo.signed_in Demo.alice) Demo.world)) ->
        PaletteColors.id c' = "c1" -> PaletteColors.paletteId c' = "p1").
Proof.
  split.
  - apply (proj1 (updatePaletteColor_frame (Demo.signed_in Demo.alice) Demo.world)
                 Demo.relabel_coral (Some Demo.coral_relabelled)
                 (snd (updatePaletteColor.handler Demo.relabel_coral
                         (Demo.signed_in Demo.alice) Demo.world))).
    reflexivity.
  - intros c' Hc' Hid.
    apply (proj2 (updatePaletteColor_frame (Demo.signed_in Demo.alice) Demo.world)
                 (UpdatePaletteColor Demo.relabel_coral) demo_pk_colors
                 Demo.coral c').
    + now left.
    + exact Hc'.
    + exact Hid.
Defined.

(** C10. A successful [updatePalette] keeps [id], [userId], [isSystem]
    and [createdAt] of every palette row, the returned one among them.
    And through none of the seven handlers does a palette change hands
    or become a system palette: under the primary key, a row after the
    call that has the id of a row before it has that row's [userId] and
    [isSystem], and a system palette after the call was one before it. *)
Theorem updatePalette_frame (context : ActionAPIContext) (w : World) :
  (forall i res w',
      updatePalette.handler i context w = (Ok res, w') ->
      Forall2 palette_frame (palettes w) (palettes w')
      /\ exists p p',
          res = Some p' /\ In p (palettes w)
          /\ ColorPalettes.id p = updatePalette.id i
          /\ palette_frame p p' /\ In p' (palettes w'))
  /\ (forall call : Call,
        pk_unique ColorPalettes.id (palettes w) ->
        (forall p p',
            In p (palettes w) -> In p' (palettes (world_after call context w)) ->
            ColorPalettes.id p' = ColorPalettes.id p ->
            ColorPalettes.userId p' = ColorPalettes.userId p
            /\ ColorPalettes.isSystem p' = ColorPalettes.isSystem p)
        /\ (forall p',
               In p' (palettes (world_after call context w)) ->
               ColorPalettes.isSystem p' = true ->
               exists p, In p (palettes w)
                         /\ ColorPalettes.id p = ColorPalettes.id p'
                         /\ ColorPalettes.isSystem p = true)).
Proof.
  split.
  - intros i res w' H.
    apply updatePalette_handler_inv in H
      as (u & p & _ & Hfirst & _ & -> & Hstore & _).
    split.
    + rewrite Hstore. apply Forall2_map_right. intros q _.
      destruct (ColorPalettes.id q =? updatePalette.id i);
        [apply apply_palette_set_frame | now repeat split].
    + apply first_in, filter_In in Hfirst as [Hin Hid].
      eexists p, _. split; [reflexivity|]. split; [exact Hin|].
      split; [now apply String.eqb_eq|].
      split; [apply apply_palette_set_frame|].
      rewrite Hstore. apply in_map_iff. exists p. now rewrite Hid.
  - intros call Hpk. split.
    + intros p p' Hp Hp' Hid.
      destruct (palettes_after call context w)
        as [E | [(v & E & _ & Hfresh) | (s & k & E)]]; rewrite E in Hp'.
      * now rewrite (pk_unique_same_key _ _ p' p Hpk Hp' Hp Hid).
      * apply in_app_or in Hp' as [Hp'|[<-|[]]].
        -- now rewrite (pk_unique_same_key _ _ p' p Hpk Hp' Hp Hid).
        -- exfalso. now apply (Hfresh p Hp).
      * apply in_map_iff in Hp' as (q & <- & Hq).
        assert (Hqp : q = p).
        { apply (pk_unique_same_key _ _ q p Hpk Hq Hp). rewrite <- Hid.
          now destruct (ColorPalettes.id q =? k). }
        subst q. now destruct (ColorPalettes.id p =? k).
    + intros p' Hp' Hsys.
      destruct (palettes_after call context w)
        as [E | [(v & E & Hv & _) | (s & k & E)]]; rewrite E in Hp'.
      * now exists p'.
      * apply in_app_or in Hp' as [Hp'|[<-|[]]]; [now exists p'|congruence].
      * apply in_map_iff in Hp' as (q & <- & Hq). exists q.
        split; [exact Hq|].
        destruct (ColorPalettes.id q =? k); [|now split].
        now split.
Qed.

Lemma updatePalette_frame_witness :
  (Forall2 palette_frame (palettes Demo.world)
           (palettes (snd (updatePalette.handler Demo.favor_sunset
                             (Demo.signed_in Demo.alice) Demo.world)))
   /\ exists p p',
       Some Demo.sunset_favored = Some p' /\ In p (palettes Demo.world)
       /\ ColorPalettes.id p = "p1"
       /\ palette_frame p p'
       /\ In p' (palettes (snd (updatePalette.handler Demo.favor_sunset
                                  (Demo.signed_in Demo.alice) Demo.world))))
  /\ (forall p',
        In p' (palettes (world_after (UpdatePalette Demo.rename_curated)
                                     (Demo.signed_in Demo.mallory) Demo.world)) ->
        ColorPalettes.id p' = "p0" ->
        ColorPalettes.userId p' = "system" /\ ColorPalettes.isSystem p' = true).
Proof.
  split.
  - apply (proj1 (updatePalette_frame (Demo.signed_in Demo.alice) Demo.world)
                 Demo.favor_sunset (Some Demo.sunset_favored)
                 (snd (updatePalette.handler Demo.favor_sunset
                         (Demo.signed_in Demo.alice) Demo.world))).
    reflexivity.
  - intros p' Hp' Hid.
    apply (proj1 (proj2 (updatePalette_frame (Demo.signed_in Demo.mallory)
                           Demo.world)
                        (UpdatePalette Demo.rename_curated) demo_pk_palettes)
                 Demo.curated p').
    + now left.
    + exact Hp'.
    + exact Hid.
Defined.

(** ** Updating twice *)

Lemma apply_palette_set_twice i t1 t2 q :
  same_but_updatedAt
    (db.apply_palette_set (palette_set_of i t1) q)
    (db.apply_palette_set (palette_set_of i t2)
       (db.apply_palette_set (palette_set_of i t1) q)).
Proof.
  unfold same_but_updatedAt. cbn.
  destruct (updatePalette.name i), (updatePalette.description i),
    (updatePalette.sourceType i), (updatePalette.sourceReference i),
    (updatePalette.isFavorite i); cbn; now repeat split.
Qed.

Lemma same_but_updatedAt_refl p : same_but_updatedAt p p.
Proof. now repeat split. Qed.

Lemma apply_color_set_idem s c :
  db.apply_color_set s (db.apply_color_set s c) = db.apply_color_set s c.
Proof.
  destruct s as [o h r l cl cd]. unfold db.apply_color_set. cbn.
  destruct o, h, r, l, cl, cd; reflexivity.
Qed.

(** C8. Updating twice with the same request.  When [updatePalette]
    succeeds, running it again with the same input in the world it left
    succeeds too, and every palette row, the returned one among them,
    has after the second run the values it had after the first in every
    column but [updatedAt].  When [updatePaletteColor] succeeds, running
    it again returns the same row and leaves the same tables. *)
Theorem partial_update_idempotent :
  (forall i context w r1 w1,
      updatePalette.handler i context w = (Ok r1, w1) ->
      exists r2 w2,
        updatePalette.handler i context w1 = (Ok r2, w2)
        /\ Forall2 same_but_updatedAt (palettes w1) (palettes w2)
        /\ (exists p1 p2, r1 = Some p1 /\ r2 = Some p2
                          /\ same_but_updatedAt p1 p2)
        /\ colors w2 = colors w1)
  /\ (forall i context w r1 w1,
        updatePaletteColor.handler i context w = (Ok r1, w1) ->
        exists w2,
          updatePaletteColor.handler i context w1 = (Ok r1, w2)
          /\ colors w2 = colors w1
          /\ palettes w2 = palettes w1).
Proof.
  split.
  - intros i context w r1 w1 H.
    apply updatePalette_handler_inv in H
      as (u & p & Hu & Hfirst & Hor & -> & Hstore & Hcolors & _).
    set (t1 := clock w (clock_reads w)) in *.
    assert (Hidp : (ColorPalettes.id p =? updatePalette.id i) = true).
    { apply first_in, filter_In in Hfirst. tauto. }
    assert (Hfirst1 :
      first (filter (fun q => ColorPalettes.id q =? updatePalette.id i) (palettes w1))
      = Some (db.apply_palette_set (palette_set_of i t1) p)).
    { rewrite Hstore, filter_map_commute, first_map, Hfirst; cbn [option_map].
      - now rewrite Hidp.
      - intros x. now destruct (ColorPalettes.id x =? updatePalette.id i) eqn:E. }
    destruct (updatePalette_handler_run i context w1 u _ Hu Hfirst1 Hor)
      as (w2 & Hrun & Hstore2 & Hcolors2).
    eexists _, w2. split; [exact Hrun|]. split; [|split].
    + rewrite Hstore2. apply Forall2_map_right. intros x Hx.
      rewrite Hstore in Hx. apply in_map_iff in Hx as (q & <- & _).
      destruct (ColorPalettes.id q =? updatePalette.id i) eqn:E.
      * change (ColorPalettes.id (db.apply_palette_set (palette_set_of i t1) q))
          with (ColorPalettes.id q).
        rewrite E. apply apply_palette_set_twice.
      * rewrite E. apply same_but_updatedAt_refl.
    + eexists _, _. split; [reflexivity|]. split; [reflexivity|].
      apply apply_palette_set_twice.
    + exact Hcolors2.
  - intros i context w r1 w1 H.
    apply updatePaletteColor_handler_inv in H
      as (u & p & e & Hu & Hfirst & Hor & He & Hset & -> & Hstore & Hpal).
    set (g := fun c => if PaletteColors.id c =? updatePaletteColor.id i
                       then db.apply_color_set (color_set_of i) c else c) in *.
    assert (Hgid : forall x, PaletteColors.id (g x) = PaletteColors.id x).
    { intros x. unfold g. now destruct (PaletteColors.id x =? _). }
    assert (Hgpid : forall x, PaletteColors.paletteId (g x) = PaletteColors.paletteId x).
    { intros x. unfold g. now destruct (PaletteColors.id x =? _). }
    assert (Hgg : forall x, g (g x) = g x).
    { intros x. unfold g at 1. rewrite Hgid. unfold g.
      destruct (PaletteColors.id x =? _); [apply apply_color_set_idem|reflexivity]. }
    rewrite <- Hpal in Hfirst.
    assert (He1 :
      first (filter (fun c => (PaletteColors.id c =? updatePaletteColor.id i)
                              && (PaletteColors.paletteId c
                                  =? updatePaletteColor.paletteId i))
                    (colors w1)) = Some (g e)).
    { rewrite Hstore, filter_map_commute, first_map, He; [reflexivity|].
      intros x. now rewrite Hgid, Hgpid. }
    destruct (updatePaletteColor_handler_run i context w1 u p _ Hu Hfirst Hor He1 Hset)
      as (w2 & Hrun & Hstore2 & Hpal2).
    exists w2. split; [|split].
    + rewrite Hrun. f_equal. f_equal. f_equal.
      rewrite Hstore, filter_map_commute, map_map by
        (intros x; now rewrite Hgid).
      apply map_ext_in. intros x Hx. apply filter_In in Hx as [_ Hx].
      unfold g. rewrite Hx. apply apply_color_set_idem.
    + rewrite Hstore2. fold g. rewrite Hstore, map_map. apply map_ext. exact Hgg.
    + exact Hpal2.
Qed.

Lemma partial_update_idempotent_witness :
  (exists r2 w2,
      updatePalette.handler Demo.favor_sunset (Demo.signed_in Demo.alice)
        (snd (updatePalette.handler Demo.favor_sunset
                (Demo.signed_in Demo.alice) Demo.world)) = (Ok r2, w2)
      /\ Forall2 same_but_updatedAt
                 (palettes (snd (updatePalette.handler Demo.favor_sunset
                                   (Demo.signed_in Demo.alice) Demo.world)))
                 (palettes w2)
      /\ (exists p1 p2, Some Demo.sunset_favored = Some p1 /\ r2 = Some p2
                        /\ same_but_updatedAt p1 p2)
      /\ colors w2
         = colors (snd (updatePalette.handler Demo.favor_sunset
                          (Demo.signed_in Demo.alice) Demo.world)))
  /\ (exists w2,
        updatePaletteColor.handler Demo.relabel_coral (Demo.signed_in Demo.alice)
          (snd (updatePaletteColor.handler Demo.relabel_coral
                  (Demo.signed_in Demo.alice) Demo.world))
        = (Ok (Some Demo.coral_relabelled), w2)
        /\ colors w2
           = colors (snd (updatePaletteColor.handler Demo.relabel_coral
                            (Demo.signed_in Demo.alice) Demo.world))
        /\ palettes w2
           = palettes (snd (updatePaletteColor.handler Demo.relabel_coral
                              (Demo.signed_in Demo.alice) Demo.world))).
Proof.
  split.
  - apply (proj1 partial_update_idempotent Demo.favor_sunset
                 (Demo.signed_in Demo.alice) Demo.world).
    reflexivity.
  - apply (proj2 partial_update_idempotent Demo.relabel_coral
                 (Demo.signed_in Demo.alice) Demo.world).
    reflexivity.
Defined.

(** * More of the handlers *)

(** ** Shared steps *)

Lemma resolver_passes (p : Palette) (userId : string) :
  ColorPalettes.userId p = userId \/ ColorPalettes.isSystem p = true ->
  negb (ColorPalettes.userId p =? userId) && negb (ColorPalettes.isSystem p)
  = false.
Proof.
  intros [<- | ->]; [now rewrite String.eqb_refl | apply andb_false_r].
Qed.

Lemma may_act_on_first w callerId paletteId :
  pk_unique ColorPalettes.id (palettes w) ->
  may_act_on w callerId paletteId ->
  exists p,
    first (filter (fun q => ColorPalettes.id q =? paletteId) (palettes w)) = Some p
    /\ (ColorPalettes.userId p = callerId \/ ColorPalettes.isSystem p = true).
Proof.
  intros Hpk (p & Hin & <- & Hor). exists p.
  now rewrite (filter_key_unique _ _ _ Hpk Hin).
Qed.

Lemma first_may_act_on w callerId paletteId p :
  first (filter (fun q => ColorPalettes.id q =? paletteId) (palettes w)) = Some p ->
  ColorPalettes.userId p = callerId \/ ColorPalettes.isSystem p = true ->
  may_act_on w callerId paletteId.
Proof.
  intros Hfirst Hor. apply first_in, filter_In in Hfirst as [Hin Hid].
  exists p. split; [exact Hin|]. split; [now apply String.eqb_eq|exact Hor].
Qed.

(** A handler past the gate and the resolver. *)
Ltac pass Hu Hfirst Hor :=
  gate Hu; unfold bind at 1;
  rewrite getOwnedPalette_eq, Hfirst, (resolver_passes _ _ Hor).

Lemma existsb_id_false {A} (key : A -> string) (k : string) (l : list A) :
  existsb (fun x => key x =? k) l = false <->
  (forall q, In q l -> key q <> k).
Proof.
  split.
  - intros H q Hq Heq.
    assert (Hex : existsb (fun x => key x =? k) l = true).
    { apply existsb_exists. exists q. split; [exact Hq|]. now apply String.eqb_eq. }
    rewrite Hex in H. discriminate.
  - intros H. destruct (existsb _ l) eqn:E; [|reflexivity].
    apply existsb_exists in E as (q & Hq & Heq). apply String.eqb_eq in Heq.
    now destruct (H q Hq).
Qed.

(** ** Creating, listing and deleting colors *)

Lemma createPaletteColor_handler_inv i context w r w' :
  createPaletteColor.handler i context w = (Ok r, w') ->
  exists u p,
    locals_user context = Some u
    /\ first (filter (fun q => ColorPalettes.id q =? createPaletteColor.paletteId i)
                     (palettes w)) = Some p
    /\ (ColorPalettes.userId p = user_id u \/ ColorPalettes.isSystem p = true)
    /\ (forall q, In q (colors w) ->
                  PaletteColors.id q <> uuid_source w (uuid_calls w))
    /\ r = Some (PaletteColors.mk (uuid_source w (uuid_calls w))
                   (createPaletteColor.paletteId i)
                   (createPaletteColor.orderIndex i)
                   (createPaletteColor.hexValue i)
                   (createPaletteColor.role i) (createPaletteColor.label i)
                   (createPaletteColor.contrastOnLight i)
                   (createPaletteColor.contrastOnDark i)
                   (clock w (clock_reads w)))
    /\ colors w'
       = (colors w
            ++ [PaletteColors.mk (uuid_source w (uuid_calls w))
                  (createPaletteColor.paletteId i)
                  (createPaletteColor.orderIndex i)
                  (createPaletteColor.hexValue i)
                  (createPaletteColor.role i) (createPaletteColor.label i)
                  (createPaletteColor.contrastOnLight i)
                  (createPaletteColor.contrastOnDark i)
                  (clock w (clock_reads w))])%list
    /\ palettes w' = palettes w.
Proof.
  unfold createPaletteColor.handler. intros H.
  apply bind_ok_inv in H as (u & w1 & Hgate & H).
  apply requireUser_inv in Hgate as [Hu ->].
  apply bind_ok_inv in H as (p & w1 & Hres & H).
  apply getOwnedPalette_inv in Hres as (-> & Hfirst & _ & _ & Hor).
  unfold bind, new_Date, randomUUID, db.insert_color in H.
  cbn [palettes colors db_log uuid_source uuid_calls clock clock_reads logged
       PaletteColors.id] in H.
  destruct (existsb _ (colors w)) eqn:Hdup; [discriminate|].
  cbn in H. inversion H; subst; clear H.
  exists u, p. repeat split; auto.
  now apply (existsb_id_false PaletteColors.id).
Qed.




Lemma deletePaletteColor_handler_run d context w u p :
  locals_user context = Some u ->
  first (filter (fun q => ColorPalettes.id q =? deletePaletteColor.paletteId d)
                (palettes w)) = Some p ->
  ColorPalettes.userId p = user_id u \/ ColorPalettes.isSystem p = true ->
  exists w',
    deletePaletteColor.handler d context w
    = (if Nat.eqb (length (filter
                             (fun c => (PaletteColors.id c =? deletePaletteColor.id d)
                                       && (PaletteColors.paletteId c
                                           =? deletePaletteColor.paletteId d))
                             (colors w))) 0
       then Throw not_found_color else Ok tt, w')
    /\ colors w'
       = filter (fun c => negb ((PaletteColors.id c =? deletePaletteColor.id d)
                                && (PaletteColors.paletteId c
                                    =? deletePaletteColor.paletteId d)))
                (colors w)
    /\ palettes w' = palettes w.
Proof.
  intros Hu Hfirst Hor. unfold deletePaletteColor.handler. pass Hu Hfirst Hor.
  unfold bind, db.delete_colors. cbn [colors logged].
  destruct (Nat.eqb _ 0); cbn; (eexists; split; [reflexivity|]; now split).
Qed.

Lemma filter_both {A} (f g : A -> bool) (l : list A) :
  filter (fun x => f x && g x) l = filter g (filter f l).
Proof.
  induction l as [|x l IH]; cbn; [reflexivity|].
  destruct (f x); cbn; [destruct (g x)|]; now rewrite IH.
Qed.



(** X3. When the caller may act on the named palette and a color row has
    both the id and the [paletteId] of the request, [deletePaletteColor]
    succeeds: the rows left are the stored rows that do not have both,
    the palette table is untouched, and under the primary key exactly
    one row is gone. *)
Theorem deletePaletteColor_removes
        (d : deletePaletteColor.input) (context : ActionAPIContext) (w : World)
        (u : User) :
  locals_user context = Some u ->
  pk_unique ColorPalettes.id (palettes w) ->
  may_act_on w (user_id u) (deletePaletteColor.paletteId d) ->
  color_under w (deletePaletteColor.id d) (deletePaletteColor.paletteId d) ->
  fst (deletePaletteColor.handler d context w) = Ok tt
  /\ (forall c, In c (colors (snd (deletePaletteColor.handler d context w))) <->
                In c (colors w)
                /\ ~ (PaletteColors.id c = deletePaletteColor.id d
                      /\ PaletteColors.paletteId c = deletePaletteColor.paletteId d))
  /\ palettes (snd (deletePaletteColor.handler d context w)) = palettes w
  /\ (pk_unique PaletteColors.id (colors w) ->
      S (length (colors (snd (deletePaletteColor.handler d context w))))
      = length (colors w)).
Proof.
  intros Hu Hpk Hmay (c0 & Hin0 & Hid0 & Hpid0).
  destruct (may_act_on_first _ _ _ Hpk Hmay) as (p & Hfirst & Hor).
  destruct (deletePaletteColor_handler_run d context w u p Hu Hfirst Hor)
    as (w' & -> & Hcol & Hpal).
  cbn [fst snd].
  assert (Hhit : In c0 (filter (fun c => (PaletteColors.id c =? deletePaletteColor.id d)
                                         && (PaletteColors.paletteId c
                                             =? deletePaletteColor.paletteId d))
                               (colors w))).
  { apply filter_In. split; [exact Hin0|].
    apply andb_true_iff. now rewrite !String.eqb_eq. }
  split; [|split; [|split]].
  - destruct (filter (fun c => (PaletteColors.id c =? deletePaletteColor.id d)
                               && (PaletteColors.paletteId c
                                   =? deletePaletteColor.paletteId d))
                     (colors w)); [exact (False_ind _ Hhit)|reflexivity].
  - intros c. rewrite Hcol, filter_In, negb_true_iff, andb_false_iff.
    rewrite !String.eqb_neq. split; intros [Hc Hn]; (split; [exact Hc|]).
    + intros [Hi Hp']. destruct Hn; contradiction.
    + destruct (String.eqb_spec (PaletteColors.id c) (deletePaletteColor.id d));
        [|now left].
      destruct (String.eqb_spec (PaletteColors.paletteId c)
                                (deletePaletteColor.paletteId d)); [|now right].
      exfalso. now apply Hn.
  - exact Hpal.
  - intros Hpkc. rewrite Hcol.
    rewrite <- (filter_length
                  (fun c => (PaletteColors.id c =? deletePaletteColor.id d)
                            && (PaletteColors.paletteId c
                                =? deletePaletteColor.paletteId d)) (colors w)).
    rewrite filter_both, <- Hid0, (filter_key_unique _ _ _ Hpkc Hin0).
    cbn. now rewrite Hpid0, String.eqb_refl.
Qed.

Lemma deletePaletteColor_removes_witness :
  fst (deletePaletteColor.handler Scenario.drop_coral
         (Demo.signed_in Demo.alice) Demo.world) = Ok tt
  /\ (forall c, In c (colors (snd (deletePaletteColor.handler Scenario.drop_coral
                                     (Demo.signed_in Demo.alice) Demo.world))) <->
                In c (colors Demo.world)
                /\ ~ (PaletteColors.id c = "c1" /\ PaletteColors.paletteId c = "p1"))
  /\ palettes (snd (deletePaletteColor.handler Scenario.drop_coral
                      (Demo.signed_in Demo.alice) Demo.world))
     = palettes Demo.world
  /\ (pk_unique PaletteColors.id (colors Demo.world) ->
      S (length (colors (snd (deletePaletteColor.handler Scenario.drop_coral
                                (Demo.signed_in Demo.alice) Demo.world))))
      = length (colors Demo.world)).
Proof.
  apply (deletePaletteColor_removes Scenario.drop_coral (Demo.signed_in Demo.alice)
           Demo.world Demo.alice eq_refl demo_pk_palettes).
  - exists Demo.sunset. cbn. tauto.
  - exists Demo.coral. cbn. tauto.
Defined.

(** ** Round trips through the color table *)




(** X5. Create, then delete.  After a successful [createPaletteColor],
    the same caller's [deletePaletteColor] with the new row's id and the
    same palette succeeds, and the color table is again what it was
    before the create. *)
Theorem created_color_can_be_deleted
        (i : createPaletteColor.input) (context : ActionAPIContext)
        (w w' : World) (c : Color) :
  createPaletteColor.handler i context w = (Ok (Some c), w') ->
  fst (deletePaletteColor.handler
         (deletePaletteColor.mk (PaletteColors.id c) (createPaletteColor.paletteId i))
         context w') = Ok tt
  /\ colors (snd (deletePaletteColor.handler
                    (deletePaletteColor.mk (PaletteColors.id c)
                                           (createPaletteColor.paletteId i))
                    context w')) = colors w.
Proof.
  intros H. apply createPaletteColor_handler_inv in H
    as (u & p & Hu & Hfirst & Hor & Hfresh & Hr & Hcolors & Hpal).
  injection Hr as ->. cbn [PaletteColors.id].
  rewrite <- Hpal in Hfirst.
  destruct (deletePaletteColor_handler_run
              (deletePaletteColor.mk (uuid_source w (uuid_calls w))
                                     (createPaletteColor.paletteId i))
              context w' u p Hu Hfirst Hor) as (w2 & -> & Hcol2 & _).
  cbn [fst snd deletePaletteColor.id deletePaletteColor.paletteId] in *.
  assert (Hold : forall q, In q (colors w) ->
            (PaletteColors.id q =? uuid_source w (uuid_calls w))
            && (PaletteColors.paletteId q =? createPaletteColor.paletteId i)
            = false).
  { intros q Hq. apply andb_false_iff. left. apply String.eqb_neq.
    now apply Hfresh. }
  split.
  - rewrite Hcolors, filter_app, (filter_nothing _ _ Hold).
    cbn. now rewrite !String.eqb_refl.
  - rewrite Hcol2, Hcolors, filter_app. cbn. rewrite !String.eqb_refl. cbn.
    rewrite app_nil_r. apply filter_everything.
    intros q Hq. now rewrite (Hold q Hq).
Qed.

Lemma created_color_can_be_deleted_witness :
  fst (deletePaletteColor.handler
         (deletePaletteColor.mk (PaletteColors.id Scenario.teal) "p1")
         (Demo.signed_in Demo.alice)
         (snd (createPaletteColor.handler Scenario.add_teal
                 (Demo.signed_in Demo.alice) Demo.world))) = Ok tt
  /\ colors (snd (deletePaletteColor.handler
                    (deletePaletteColor.mk (PaletteColors.id Scenario.teal) "p1")
                    (Demo.signed_in Demo.alice)
                    (snd (createPaletteColor.handler Scenario.add_teal
                            (Demo.signed_in Demo.alice) Demo.world))))
     = colors Demo.world.
Proof.
  apply (created_color_can_be_deleted Scenario.add_teal
           (Demo.signed_in Demo.alice) Demo.world
           (snd (createPaletteColor.handler Scenario.add_teal
                   (Demo.signed_in Demo.alice) Demo.world))
           Scenario.teal).
  reflexivity.
Defined.

(** ** Refusals *)

(** X6. On a palette that belongs to somebody else and is not a system
    palette, each of the four color handlers stops with FORBIDDEN after
    the one SELECT of the resolver: nothing is inserted, rewritten,
    deleted or listed, and neither the clock nor the UUID source is
    used. *)
Theorem colors_of_foreign_palette_forbidden
        (context : ActionAPIContext) (w : World) (u : User) (p : Palette) :
  locals_user context = Some u ->
  pk_unique ColorPalettes.id (palettes w) ->
  In p (palettes w) ->
  ColorPalettes.userId p <> user_id u ->
  ColorPalettes.isSystem p = false ->
  (forall i, createPaletteColor.paletteId i = ColorPalettes.id p ->
             createPaletteColor.handler i context w
             = (Throw forbidden, logged (SELECT TColorPalettes) w))
  /\ (forall i, updatePaletteColor.paletteId i = ColorPalettes.id p ->
                updatePaletteColor.handler i context w
                = (Throw forbidden, logged (SELECT TColorPalettes) w))
  /\ (forall i, deletePaletteColor.paletteId i = ColorPalettes.id p ->
                deletePaletteColor.handler i context w
                = (Throw forbidden, logged (SELECT TColorPalettes) w))
  /\ (forall i, listPaletteColors.paletteId i = ColorPalettes.id p ->
                listPaletteColors.handler i context w
                = (Throw forbidden, logged (SELECT TColorPalettes) w)).
Proof.
  intros Hu Hpk Hin Hother Hsys.
  repeat split; intros i Hid; symmetry in Hid;
    [ unfold createPaletteColor.handler | unfold updatePaletteColor.handler
    | unfold deletePaletteColor.handler | unfold listPaletteColors.handler ];
    gate Hu;
    apply bind_throw;
    exact (getOwnedPalette_stranger _ _ _ _ Hpk Hin Hid Hother Hsys).
Qed.

Lemma colors_of_foreign_palette_forbidden_witness :
  createPaletteColor.handler Scenario.add_teal
    (Demo.signed_in Demo.mallory) Demo.world
  = (Throw forbidden, logged (SELECT TColorPalettes) Demo.world)
  /\ deletePaletteColor.handler Scenario.drop_coral
       (Demo.signed_in Demo.mallory) Demo.world
     = (Throw forbidden, logged (SELECT TColorPalettes) Demo.world).
Proof.
  assert (Hin : In Demo.sunset (palettes Demo.world)) by (cbn; tauto).
  assert (Hother : ColorPalettes.userId Demo.sunset <> user_id Demo.mallory)
    by discriminate.
  destruct (colors_of_foreign_palette_forbidden
              (Demo.signed_in Demo.mallory) Demo.world Demo.mallory Demo.sunset
              eq_refl demo_pk_palettes Hin Hother eq_refl)
    as (Hcreate & _ & Hdelete & _).
  split.
  - now apply Hcreate.
  - now apply Hdelete.
Defined.

(** X7. When no palette has the named id, [updatePalette] and the four
    color handlers stop with NOT_FOUND ("Palette not found.") after the
    one SELECT of the resolver, with both tables, the clock and the UUID
    source as they were. *)
Theorem missing_palette_not_found
        (context : ActionAPIContext) (w : World) (u : User) (paletteId : string) :
  locals_user context = Some u ->
  (forall p, In p (palettes w) -> ColorPalettes.id p <> paletteId) ->
  (forall i, updatePalette.id i = paletteId ->
             updatePalette.handler i context w
             = (Throw not_found_palette, logged (SELECT TColorPalettes) w))
  /\ (forall i, createPaletteColor.paletteId i = paletteId ->
                createPaletteColor.handler i context w
                = (Throw not_found_palette, logged (SELECT TColorPalettes) w))
  /\ (forall i, updatePaletteColor.paletteId i = paletteId ->
                updatePaletteColor.handler i context w
                = (Throw not_found_palette, logged (SELECT TColorPalettes) w))
  /\ (forall i, deletePaletteColor.paletteId i = paletteId ->
                deletePaletteColor.handler i context w
                = (Throw not_found_palette, logged (SELECT TColorPalettes) w))
  /\ (forall i, listPaletteColors.paletteId i = paletteId ->
                listPaletteColors.handler i context w
                = (Throw not_found_palette, logged (SELECT TColorPalettes) w)).
Proof.
  intros Hu Habsent.
  repeat split; intros i <-;
    [ unfold updatePalette.handler | unfold createPaletteColor.handler
    | unfold updatePaletteColor.handler | unfold deletePaletteColor.handler
    | unfold listPaletteColors.handler ];
    gate Hu;
    apply bind_throw;
    exact (getOwnedPalette_absent _ _ _ Habsent).
Qed.

Lemma missing_palette_not_found_witness :
  updatePalette.handler (updatePalette.mk "p9" (Some "Ghost") None None None None)
    (Demo.signed_in Demo.alice) Demo.world
  = (Throw not_found_palette, logged (SELECT TColorPalettes) Demo.world)
  /\ listPaletteColors.handler (listPaletteColors.mk "p9")
       (Demo.signed_in Demo.alice) Demo.world
     = (Throw not_found_palette, logged (SELECT TColorPalettes) Demo.world).
Proof.
  assert (Habsent : forall p, In p (palettes Demo.world) ->
                              ColorPalettes.id p <> "p9").
  { cbn. intros p [<-|[<-|[<-|[]]]]; discriminate. }
  destruct (missing_palette_not_found (Demo.signed_in Demo.alice) Demo.world
              Demo.alice "p9" eq_refl Habsent)
    as (Hupdate & _ & _ & _ & Hlist).
  split.
  - now apply Hupdate.
  - now apply Hlist.
Defined.

Lemma filter_none_hit {A} (f : A -> bool) (l : list A) :
  Nat.eqb (length (filter f l)) 0 = true ->
  filter (fun x => negb (f x)) l = l.
Proof.
  intros H. apply Nat.eqb_eq in H. apply filter_everything. intros x Hx.
  destruct (f x) eqn:E; [|reflexivity].
  assert (Hin : In x (filter f l)) by (apply filter_In; now split).
  destruct (filter f l); [destruct Hin|discriminate].
Qed.

(** X8. A call that ends in an [ActionError] (UNAUTHORIZED, FORBIDDEN or
    NOT_FOUND) has written nothing: both tables are what they were, and
    neither the clock nor the UUID source was used.  This holds for the
    seven handlers, the delete included, whose NOT_FOUND comes after its
    DELETE statement matched no row. *)
Theorem action_error_writes_nothing
        (c : Call) (context : ActionAPIContext) (w : World)
        (code : ErrorCode) (message : string) :
  exception_of c context w = Some (ActionError code message) ->
  palettes (world_after c context w) = palettes w
  /\ colors (world_after c context w) = colors w
  /\ uuid_calls (world_after c context w) = uuid_calls w
  /\ clock_reads (world_after c context w) = clock_reads w.
Proof.
  destruct c as [i|i|i|i|i|i|i]; unfold exception_of, world_after, thrown.
  - unfold createPalette.handler, bind, requireUser.
    destruct (locals_user context) as [u|]; [|now repeat split].
    cbn. unfold db.insert_palette. cbn.
    destruct (existsb _ (palettes w)); cbn; discriminate.
  - unfold updatePalette.handler, bind, requireUser.
    destruct (locals_user context) as [u|]; [|now repeat split].
    cbn. rewrite getOwnedPalette_eq.
    destruct (first _) as [p|]; [|now repeat split].
    destruct (negb _ && negb _); [now repeat split|].
    cbn. unfold db.update_palettes. rewrite updatePalette_set_not_empty.
    cbn. discriminate.
  - unfold listPalettes.handler, bind, requireUser.
    destruct (locals_user context) as [u|]; [|now repeat split].
    cbn. discriminate.
  - unfold createPaletteColor.handler, bind, requireUser.
    destruct (locals_user context) as [u|]; [|now repeat split].
    cbn. rewrite getOwnedPalette_eq.
    destruct (first _) as [p|]; [|now repeat split].
    destruct (negb _ && negb _); [now repeat split|].
    cbn. unfold db.insert_color. cbn.
    destruct (existsb _ (colors w)); cbn; discriminate.
  - unfold updatePaletteColor.handler, bind, requireUser.
    destruct (locals_user context) as [u|]; [|now repeat split].
    cbn. rewrite getOwnedPalette_eq.
    destruct (first _) as [p|]; [|now repeat split].
    destruct (negb _ && negb _); [now repeat split|].
    cbn. destruct (first _); [|now repeat split].
    unfold db.update_colors. destruct (db.color_set_empty _); cbn; discriminate.
  - unfold deletePaletteColor.handler, bind, requireUser.
    destruct (locals_user context) as [u|]; [|now repeat split].
    cbn. rewrite getOwnedPalette_eq.
    destruct (first _) as [p|]; [|now repeat split].
    destruct (negb _ && negb _); [now repeat split|].
    cbn. destruct (Nat.eqb _ 0) eqn:Hzero; cbn; [|discriminate].
    intros _. repeat split. now apply filter_none_hit.
  - unfold listPaletteColors.handler, bind, requireUser.
    destruct (locals_user context) as [u|]; [|now repeat split].
    cbn. rewrite getOwnedPalette_eq.
    destruct (first _) as [p|]; [|now repeat split].
    destruct (negb _ && negb _); [now repeat split|].
    cbn. discriminate.
Qed.

Lemma action_error_writes_nothing_witness :
  palettes (world_after (DeletePaletteColor (deletePaletteColor.mk "c1" "p2"))
                        (Demo.signed_in Demo.alice) Demo.world)
  = palettes Demo.world
  /\ colors (world_after (DeletePaletteColor (deletePaletteColor.mk "c1" "p2"))
                         (Demo.signed_in Demo.alice) Demo.world)
     = colors Demo.world
  /\ uuid_calls (world_after (DeletePaletteColor (deletePaletteColor.mk "c1" "p2"))
                             (Demo.signed_in Demo.alice) Demo.world)
     = uuid_calls Demo.world
  /\ clock_reads (world_after (DeletePaletteColor (deletePaletteColor.mk "c1" "p2"))
                              (Demo.signed_in Demo.alice) Demo.world)
     = clock_reads Demo.world.
Proof.
  apply (action_error_writes_nothing
           (DeletePaletteColor (deletePaletteColor.mk "c1" "p2"))
           (Demo.signed_in Demo.alice) Demo.world
           NOT_FOUND "Palette color not found.").
  reflexivity.
Defined.

(** X9. The statements a call sends, in order, are one of the few
    sequences of [traces]: [createPalette] sends at most its INSERT and
    [listPalettes] at most its SELECT; every other handler sends the
    resolver's SELECT on ColorPalettes before anything else, writes at
    most once and last, and a color handler never writes to
    ColorPalettes. *)
Theorem statements_sent
        (c : Call) (context : ActionAPIContext) (w : World) :
  exists sent,
    db_log (world_after c context w) = (db_log w ++ sent)%list
    /\ In sent (traces c).
Proof.
  assert (Hnil : db_log w = (db_log w ++ [])%list) by (now rewrite app_nil_r).
  assert (Htwo : forall a b, ((db_log w ++ [a]) ++ [b])%list
                             = (db_log w ++ [a; b])%list)
    by (intros a b; now rewrite <- app_assoc).
  assert (Hthree : forall a b d, (((db_log w ++ [a]) ++ [b]) ++ [d])%list
                                 = (db_log w ++ [a; b; d])%list)
    by (intros a b d; now rewrite <- !app_assoc).
  destruct c as [i|i|i|i|i|i|i]; unfold world_after, traces.
  - unfold createPalette.handler, bind, requireUser.
    destruct (locals_user context) as [u|]; [|exists []; cbn; auto].
    cbn. unfold db.insert_palette. cbn.
    exists [INSERT TColorPalettes].
    destruct (existsb _ (palettes w)); cbn; auto.
  - unfold updatePalette.handler, bind, requireUser.
    destruct (locals_user context) as [u|]; [|exists []; cbn; auto].
    cbn. rewrite getOwnedPalette_eq.
    destruct (first _) as [p|]; [|exists [SELECT TColorPalettes]; cbn; auto].
    destruct (negb _ && negb _); [exists [SELECT TColorPalettes]; cbn; auto|].
    cbn. unfold db.update_palettes. rewrite updatePalette_set_not_empty.
    exists [SELECT TColorPalettes; UPDATE TColorPalettes]. cbn. auto.
  - unfold listPalettes.handler, bind, requireUser.
    destruct (locals_user context) as [u|]; [|exists []; cbn; auto].
    exists [SELECT TColorPalettes]. cbn. auto.
  - unfold createPaletteColor.handler, bind, requireUser.
    destruct (locals_user context) as [u|]; [|exists []; cbn; auto].
    cbn. rewrite getOwnedPalette_eq.
    destruct (first _) as [p|]; [|exists [SELECT TColorPalettes]; cbn; auto].
    destruct (negb _ && negb _); [exists [SELECT TColorPalettes]; cbn; auto|].
    cbn. unfold db.insert_color. cbn.
    exists [SELECT TColorPalettes; INSERT TPaletteColors].
    destruct (existsb _ (colors w)); cbn; auto.
  - unfold updatePaletteColor.handler, bind, requireUser.
    destruct (locals_user context) as [u|]; [|exists []; cbn; auto].
    cbn. rewrite getOwnedPalette_eq.
    destruct (first _) as [p|]; [|exists [SELECT TColorPalettes]; cbn; auto].
    destruct (negb _ && negb _); [exists [SELECT TColorPalettes]; cbn; auto|].
    cbn. destruct (first _);
      [|exists [SELECT TColorPalettes; SELECT TPaletteColors]; cbn; auto].
    unfold db.update_colors. destruct (db.color_set_empty _).
    + exists [SELECT TColorPalettes; SELECT TPaletteColors]. cbn. auto.
    + exists [SELECT TColorPalettes; SELECT TPaletteColors; UPDATE TPaletteColors].
      cbn. auto 6.
  - unfold deletePaletteColor.handler, bind, requireUser.
    destruct (locals_user context) as [u|]; [|exists []; cbn; auto].
    cbn. rewrite getOwnedPalette_eq.
    destruct (first _) as [p|]; [|exists [SELECT TColorPalettes]; cbn; auto].
    destruct (negb _ && negb _); [exists [SELECT TColorPalettes]; cbn; auto|].
    cbn. exists [SELECT TColorPalettes; DELETE TPaletteColors].
    destruct (Nat.eqb _ 0); cbn; auto.
  - unfold listPaletteColors.handler, bind, requireUser.
    destruct (locals_user context) as [u|]; [|exists []; cbn; auto].
    cbn. rewrite getOwnedPalette_eq.
    destruct (first _) as [p|]; [|exists [SELECT TColorPalettes]; cbn; auto].
    destruct (negb _ && negb _); [exists [SELECT TColorPalettes]; cbn; auto|].
    cbn. exists [SELECT TColorPalettes; SELECT TPaletteColors]. cbn. auto.
Qed.

(** ** Invariants along any sequence of calls *)

Lemma run_cons cc calls w :
  run (cc :: calls) w = run calls (world_after (fst cc) (snd cc) w).
Proof. reflexivity. Qed.

(** X10. The primary keys hold along any sequence of calls: when no two
    palettes and no two colors share an id, the same is true after the
    calls, whoever makes them and however they end. *)
Theorem primary_keys_kept
        (calls : list (Call * ActionAPIContext)) (w : World) :
  pk_unique ColorPalettes.id (palettes w) ->
  pk_unique PaletteColors.id (colors w) ->
  pk_unique ColorPalettes.id (palettes (run calls w))
  /\ pk_unique PaletteColors.id (colors (run calls w)).
Proof.
  revert w. induction calls as [|cc calls IH]; intros w Hp Hc.
  - now split.
  - rewrite run_cons.
    destruct (world_after_pk_unique (fst cc) (snd cc) w Hp Hc) as [Hp' Hc'].
    now apply IH.
Qed.

Lemma primary_keys_kept_witness :
  pk_unique ColorPalettes.id (palettes (run Scenario.day Demo.world))
  /\ pk_unique PaletteColors.id (colors (run Scenario.day Demo.world)).
Proof.
  apply (primary_keys_kept Scenario.day Demo.world
           demo_pk_palettes demo_pk_colors).
Defined.

Lemma palette_identity_step (c : Call) (context : ActionAPIContext) (w : World) :
  exists added,
    map palette_identity (palettes (world_after c context w))
    = (map palette_identity (palettes w) ++ map palette_identity added)%list
    /\ Forall (fun p => ColorPalettes.isSystem p = false) added.
Proof.
  destruct (palettes_after c context w)
    as [E | [(v & E & Hv & _) | (s & k & E)]]; rewrite E.
  - exists []. cbn. now rewrite app_nil_r.
  - exists [v]. rewrite map_app. split; [reflexivity|]. now constructor.
  - exists []. cbn. rewrite app_nil_r, map_map. split; [|constructor].
    apply map_ext. intros q. now destruct (ColorPalettes.id q =? k).
Qed.

(** X11. No sequence of calls deletes a palette, hands it to another
    user, changes its system flag or its creation time: the rows'
    (id, userId, isSystem, createdAt) after the calls are those before
    them, in the same order, followed by those of the palettes created
    meanwhile, none of which is a system palette. *)
Theorem palettes_only_grow
        (calls : list (Call * ActionAPIContext)) (w : World) :
  exists added,
    map palette_identity (palettes (run calls w))
    = (map palette_identity (palettes w) ++ map palette_identity added)%list
    /\ Forall (fun p => ColorPalettes.isSystem p = false) added.
Proof.
  revert w. induction calls as [|cc calls IH]; intros w.
  - exists []. cbn. split; [now rewrite app_nil_r|constructor].
  - rewrite run_cons.
    destruct (palette_identity_step (fst cc) (snd cc) w) as (a1 & E1 & F1).
    destruct (IH (world_after (fst cc) (snd cc) w)) as (a2 & E2 & F2).
    exists (a1 ++ a2)%list. split.
    + now rewrite E2, E1, map_app, app_assoc.
    + apply Forall_app. now split.
Qed.

Lemma system_palette_step (c : Call) (context : ActionAPIContext) (w : World)
      (p' : Palette) :
  In p' (palettes (world_after c context w)) ->
  ColorPalettes.isSystem p' = true ->
  exists p, In p (palettes w) /\ palette_identity p = palette_identity p'.
Proof.
  intros Hin Hsys.
  destruct (palette_identity_step c context w) as (added & E & Hadded).
  assert (Hk : In (palette_identity p')
                  (map palette_identity (palettes (world_after c context w))))
    by now apply in_map.
  rewrite E in Hk. apply in_app_or in Hk as [Hk|Hk].
  - apply in_map_iff in Hk as (p & Hp & Hpin). now exists p.
  - apply in_map_iff in Hk as (v & Hv & Hvin).
    rewrite Forall_forall in Hadded. specialize (Hadded v Hvin).
    unfold palette_identity in Hv. injection Hv as _ _ Hs _. congruence.
Qed.

(** X12. No sequence of calls makes a system palette: a system palette
    found after the calls has the (id, userId, isSystem, createdAt) of a
    palette that was there before them. *)
Theorem system_palettes_are_seeded
        (calls : list (Call * ActionAPIContext)) (w : World) (p' : Palette) :
  In p' (palettes (run calls w)) ->
  ColorPalettes.isSystem p' = true ->
  exists p, In p (palettes w) /\ palette_identity p = palette_identity p'.
Proof.
  revert w p'. induction calls as [|cc calls IH]; intros w p' Hin Hsys.
  - now exists p'.
  - rewrite run_cons in Hin.
    destruct (IH _ p' Hin Hsys) as (p1 & Hin1 & E1).
    assert (Hsys1 : ColorPalettes.isSystem p1 = true).
    { unfold palette_identity in E1. injection E1 as _ _ Hs _. congruence. }
    destruct (system_palette_step _ _ _ p1 Hin1 Hsys1) as (p & Hp & E).
    exists p. split; [exact Hp|]. congruence.
Qed.

Lemma system_palettes_are_seeded_witness :
  exists p, In p (palettes Demo.world)
            /\ palette_identity p = palette_identity Demo.renamed.
Proof.
  apply (system_palettes_are_seeded Scenario.day Demo.world Demo.renamed).
  - vm_compute. left. reflexivity.
  - reflexivity.
Defined.

(** ** Listing palettes *)

Lemma listPalettes_outcome i context w u :
  locals_user context = Some u ->
  listPalettes.handler i context w
  = (Ok (mkListing
           (filter (fun p => ((ColorPalettes.userId p =? user_id u)
                              || ColorPalettes.isSystem p)
                             && (negb (listPalettes.favoritesOnly i)
                                 || ColorPalettes.isFavorite p))
                   (palettes w))
           (length
              (filter (fun p => ((ColorPalettes.userId p =? user_id u)
                                 || ColorPalettes.isSystem p)
                                && (negb (listPalettes.favoritesOnly i)
                                    || ColorPalettes.isFavorite p))
                      (palettes w)))),
     logged (SELECT TColorPalettes) w).
Proof.
  intros Hu. unfold listPalettes.handler. gate Hu.
  unfold bind, db.select_palettes, ret.
  assert (E : forall l : list Palette,
    filter (fun p => forallb (fun f : Palette -> bool => f p)
      (if listPalettes.favoritesOnly i
       then ([fun p0 : Palette =>
                (ColorPalettes.userId p0 =? user_id u)
                || Bool.eqb (ColorPalettes.isSystem p0) true]
             ++ [fun p0 : Palette => Bool.eqb (ColorPalettes.isFavorite p0) true])%list
       else [fun p0 : Palette =>
               (ColorPalettes.userId p0 =? user_id u)
               || Bool.eqb (ColorPalettes.isSystem p0) true])) l
    = filter (fun p => ((ColorPalettes.userId p =? user_id u)
                        || ColorPalettes.isSystem p)
                       && (negb (listPalettes.favoritesOnly i)
                           || ColorPalettes.isFavorite p)) l).
  { intros l. apply filter_ext. intros p.
    destruct (listPalettes.favoritesOnly i); cbn;
      destruct (ColorPalettes.userId p =? user_id u);
      destruct (ColorPalettes.isSystem p);
      destruct (ColorPalettes.isFavorite p); reflexivity. }
  now rewrite E.
Qed.

(** X13. The listing and the resolver agree.  For a signed-in caller and
    under the primary key, a stored palette is among the items of
    [listPalettes] without the favorites flag exactly when
    [getOwnedPalette] on its id resolves to it for that caller: what a
    caller sees listed is what the caller may act on. *)
Theorem listed_iff_resolved
        (context : ActionAPIContext) (w : World) (u : User) :
  locals_user context = Some u ->
  pk_unique ColorPalettes.id (palettes w) ->
  exists its,
    fst (listPalettes.handler (listPalettes.mk false) context w)
    = Ok (mkListing its (length its))
    /\ forall p, In p its <->
                 In p (palettes w)
                 /\ fst (getOwnedPalette (ColorPalettes.id p) (user_id u) w) = Ok p.
Proof.
  intros Hu Hpk. rewrite (listPalettes_outcome _ _ _ _ Hu). cbn [fst].
  eexists. split; [reflexivity|].
  intros p. rewrite filter_In. cbn [listPalettes.favoritesOnly negb orb].
  rewrite andb_true_r. split; intros [Hin H]; (split; [exact Hin|]).
  - rewrite (getOwnedPalette_present _ _ _ p Hpk Hin eq_refl). cbn [fst].
    apply orb_true_iff in H as [H|H]; rewrite H; [reflexivity|].
    now rewrite andb_false_r.
  - rewrite (getOwnedPalette_present _ _ _ p Hpk Hin eq_refl) in H. cbn [fst] in H.
    destruct (ColorPalettes.userId p =? user_id u); [reflexivity|].
    destruct (ColorPalettes.isSystem p); [reflexivity|discriminate].
Qed.

Lemma listed_iff_resolved_witness :
  exists its,
    fst (listPalettes.handler (listPalettes.mk false)
           (Demo.signed_in Demo.mallory) Demo.world)
    = Ok (mkListing its (length its))
    /\ forall p, In p its <->
                 In p (palettes Demo.world)
                 /\ fst (getOwnedPalette (ColorPalettes.id p) "mallory" Demo.world)
                    = Ok p.
Proof.
  apply (listed_iff_resolved (Demo.signed_in Demo.mallory) Demo.world
           Demo.mallory eq_refl demo_pk_palettes).
Defined.

(** X14. The favorites listing is the full listing filtered: for a
    signed-in caller, [listPalettes] with [favoritesOnly] returns the
    favorites among the items it returns without the flag, in the same
    order; and a request that leaves the flag out is served as one with
    the flag false. *)
Theorem favorites_listing_is_filtered
        (context : ActionAPIContext) (w : World) (u : User) :
  locals_user context = Some u ->
  exists every,
    fst (listPalettes.handler (listPalettes.mk false) context w)
    = Ok (mkListing every (length every))
    /\ fst (listPalettes.handler (listPalettes.mk true) context w)
       = Ok (mkListing (filter ColorPalettes.isFavorite every)
                       (length (filter ColorPalettes.isFavorite every)))
    /\ server.listPalettes (listPalettes.mkRequest None) context w
       = listPalettes.handler (listPalettes.mk false) context w.
Proof.
  intros Hu.
  exists (filter (fun p => (ColorPalettes.userId p =? user_id u)
                           || ColorPalettes.isSystem p) (palettes w)).
  split; [|split; [|reflexivity]];
    rewrite (listPalettes_outcome _ _ _ _ Hu); cbn [fst];
    cbn [listPalettes.favoritesOnly negb orb].
  - assert (E : forall l : list Palette,
      filter (fun p => ((ColorPalettes.userId p =? user_id u)
                        || ColorPalettes.isSystem p) && true) l
      = filter (fun p => (ColorPalettes.userId p =? user_id u)
                         || ColorPalettes.isSystem p) l).
    { intros l. apply filter_ext. intros p. apply andb_true_r. }
    now rewrite E.
  - now rewrite <- filter_both.
Qed.

Lemma favorites_listing_is_filtered_witness :
  exists every,
    fst (listPalettes.handler (listPalettes.mk false)
           (Demo.signed_in Demo.alice) Demo.world)
    = Ok (mkListing every (length every))
    /\ fst (listPalettes.handler (listPalettes.mk true)
              (Demo.signed_in Demo.alice) Demo.world)
       = Ok (mkListing (filter ColorPalettes.isFavorite every)
                       (length (filter ColorPalettes.isFavorite every)))
    /\ server.listPalettes (listPalettes.mkRequest None)
         (Demo.signed_in Demo.alice) Demo.world
       = listPalettes.handler (listPalettes.mk false)
           (Demo.signed_in Demo.alice) Demo.world.
Proof.
  apply (favorites_listing_is_filtered (Demo.signed_in Demo.alice) Demo.world
           Demo.alice eq_refl).
Defined.

(** ** A palette after its creation *)

Lemma createPalette_handler_inv i context w r w' :
  createPalette.handler i context w = (Ok r, w') ->
  exists u,
    locals_user context = Some u
    /\ (forall q, In q (palettes w) ->
                  ColorPalettes.id q <> uuid_source w (uuid_calls w))
    /\ r = Some (ColorPalettes.mk (uuid_source w (uuid_calls w)) (user_id u)
                   (createPalette.name i) (createPalette.description i)
                   (createPalette.sourceType i) (createPalette.sourceReference i)
                   (match createPalette.isFavorite i with
                    | Some b => b | None => false end)
                   false (clock w (clock_reads w)) (clock w (clock_reads w)))
    /\ palettes w'
       = (palettes w
            ++ [ColorPalettes.mk (uuid_source w (uuid_calls w)) (user_id u)
                  (createPalette.name i) (createPalette.description i)
                  (createPalette.sourceType i) (createPalette.sourceReference i)
                  (match createPalette.isFavorite i with
                   | Some b => b | None => false end)
                  false (clock w (clock_reads w)) (clock w (clock_reads w))])%list
    /\ colors w' = colors w.
Proof.
  unfold createPalette.handler. intros H.
  apply bind_ok_inv in H as (u & w1 & Hgate & H).
  apply requireUser_inv in Hgate as [Hu ->].
  unfold bind, new_Date, randomUUID, db.insert_palette in H.
  cbn [palettes colors db_log uuid_source uuid_calls clock clock_reads logged
       ColorPalettes.id] in H.
  destruct (existsb _ (palettes w)) eqn:Hdup; [discriminate|].
  cbn in H. inversion H; subst; clear H.
  exists u. repeat split; auto.
  now apply (existsb_id_false ColorPalettes.id).
Qed.



(** X16. Create, then list.  After a successful [createPalette], its
    caller's [listPalettes] returns what it returned before followed by
    the new palette, or just what it returned before when the favorites
    flag is set and the new palette is no favorite; the listing of every
    other signed-in caller is what it was. *)
Theorem created_palette_is_listed
        (i : createPalette.input) (context : ActionAPIContext)
        (w w' : World) (p : Palette) (favoritesOnly : bool) :
  createPalette.handler i context w = (Ok (Some p), w') ->
  exists its,
    fst (listPalettes.handler (listPalettes.mk favoritesOnly) context w)
    = Ok (mkListing its (length its))
    /\ fst (listPalettes.handler (listPalettes.mk favoritesOnly) context w')
       = Ok (mkListing
               (its ++ (if negb favoritesOnly || ColorPalettes.isFavorite p
                        then [p] else []))%list
               (length (its ++ (if negb favoritesOnly || ColorPalettes.isFavorite p
                                then [p] else []))%list))
    /\ (forall context' u v,
           locals_user context = Some u -> locals_user context' = Some v ->
           user_id v <> user_id u ->
           fst (listPalettes.handler (listPalettes.mk favoritesOnly) context' w')
           = fst (listPalettes.handler (listPalettes.mk favoritesOnly) context' w)).
Proof.
  intros H. apply createPalette_handler_inv in H
    as (u & Hu & _ & Hr & Hpal & _).
  injection Hr as ->.
  eexists. split; [|split].
  - rewrite (listPalettes_outcome _ _ _ _ Hu). reflexivity.
  - rewrite (listPalettes_outcome _ _ _ _ Hu). cbn [fst].
    rewrite Hpal, filter_app.
    cbn [filter ColorPalettes.userId ColorPalettes.isSystem
         ColorPalettes.isFavorite listPalettes.favoritesOnly].
    rewrite String.eqb_refl. cbn [orb andb].
    now destruct (negb favoritesOnly || _).
  - intros context' u' v Hu' Hv Hother. rewrite Hu in Hu'. injection Hu' as <-.
    rewrite !(listPalettes_outcome _ _ _ _ Hv). cbn [fst].
    rewrite Hpal, filter_app.
    cbn [filter ColorPalettes.userId ColorPalettes.isSystem
         ColorPalettes.isFavorite listPalettes.favoritesOnly].
    apply not_eq_sym, String.eqb_neq in Hother. rewrite Hother.
    cbn [orb andb]. now rewrite app_nil_r.
Qed.

Lemma created_palette_is_listed_witness :
  exists its,
    fst (listPalettes.handler (listPalettes.mk true)
           (Demo.signed_in Demo.alice) Demo.world)
    = Ok (mkListing its (length its))
    /\ fst (listPalettes.handler (listPalettes.mk true)
              (Demo.signed_in Demo.alice)
              (snd (createPalette.handler Demo.new_ocean
                      (Demo.signed_in Demo.alice) Demo.world)))
       = Ok (mkListing
               (its ++ (if negb true || ColorPalettes.isFavorite Demo.ocean
                        then [Demo.ocean] else []))%list
               (length (its ++ (if negb true || ColorPalettes.isFavorite Demo.ocean
                                then [Demo.ocean] else []))%list))
    /\ (forall context' u v,
           locals_user (Demo.signed_in Demo.alice) = Some u ->
           locals_user context' = Some v ->
           user_id v <> user_id u ->
           fst (listPalettes.handler (listPalettes.mk true) context'
                  (snd (createPalette.handler Demo.new_ocean
                          (Demo.signed_in Demo.alice) Demo.world)))
           = fst (listPalettes.handler (listPalettes.mk true) context' Demo.world)).
Proof.
  apply (created_palette_is_listed Demo.new_ocean (Demo.signed_in Demo.alice)
           Demo.world
           (snd (createPalette.handler Demo.new_ocean
                   (Demo.signed_in Demo.alice) Demo.world))
           Demo.ocean true).
  reflexivity.
Defined.

(** ** Updates that go through *)

(** X17. Whoever the resolver lets through can update: when the caller
    owns the addressed palette, or it is a system palette,
    [updatePalette] succeeds on every input and returns the row patched
    with the request; the patched row is stored, the rows with another
    id are still there, no row is added or lost, and the color table is
    untouched. *)
Theorem granted_update_succeeds
        (i : updatePalette.input) (context : ActionAPIContext) (w : World)
        (u : User) (p : Palette) :
  locals_user context = Some u ->
  pk_unique ColorPalettes.id (palettes w) ->
  In p (palettes w) -> ColorPalettes.id p = updatePalette.id i ->
  ColorPalettes.userId p = user_id u \/ ColorPalettes.isSystem p = true ->
  exists p' w',
    updatePalette.handler i context w = (Ok (Some p'), w')
    /\ palette_patched i (clock w (clock_reads w)) p p'
    /\ In p' (palettes w')
    /\ (forall q, In q (palettes w) ->
                  ColorPalettes.id q <> updatePalette.id i -> In q (palettes w'))
    /\ length (palettes w') = length (palettes w)
    /\ colors w' = colors w.
Proof.
  intros Hu Hpk Hin Hid Hor.
  assert (Hfirst :
    first (filter (fun q => ColorPalettes.id q =? updatePalette.id i) (palettes w))
    = Some p).
  { rewrite <- Hid. now rewrite (filter_key_unique _ _ _ Hpk Hin). }
  destruct (updatePalette_handler_run i context w u p Hu Hfirst Hor)
    as (w' & Hrun & Hstore & Hcolors).
  eexists _, w'. split; [exact Hrun|].
  split; [apply apply_palette_set_patched|].
  split; [|split; [|split]].
  - rewrite Hstore. apply in_map_iff. exists p. split; [|exact Hin].
    rewrite Hid. now rewrite String.eqb_refl.
  - intros q Hq Hne. rewrite Hstore. apply in_map_iff. exists q.
    split; [|exact Hq]. apply String.eqb_neq in Hne. now rewrite Hne.
  - rewrite Hstore. apply length_map.
  - exact Hcolors.
Qed.

Lemma granted_update_succeeds_witness :
  exists p' w',
    updatePalette.handler Demo.favor_sunset (Demo.signed_in Demo.alice) Demo.world
    = (Ok (Some p'), w')
    /\ palette_patched Demo.favor_sunset
                       (clock Demo.world (clock_reads Demo.world)) Demo.sunset p'
    /\ In p' (palettes w')
    /\ (forall q, In q (palettes Demo.world) ->
                  ColorPalettes.id q <> "p1" -> In q (palettes w'))
    /\ length (palettes w') = length (palettes Demo.world)
    /\ colors w' = colors Demo.world.
Proof.
  apply (granted_update_succeeds Demo.favor_sunset (Demo.signed_in Demo.alice)
           Demo.world Demo.alice Demo.sunset eq_refl demo_pk_palettes).
  - cbn. tauto.
  - reflexivity.
  - now left.
Defined.






(** ** What a caller cannot touch *)

Lemma resolver_passed_inv (p : Palette) (userId : string) :
  negb (ColorPalettes.userId p =? userId) && negb (ColorPalettes.isSystem p)
  = false ->
  ColorPalettes.userId p = userId \/ ColorPalettes.isSystem p = true.
Proof.
  destruct (String.eqb_spec (ColorPalettes.userId p) userId) as [E|_];
    [now left|].
  destruct (ColorPalettes.isSystem p); [now right|discriminate].
Qed.

(** X20. Colors under a palette the caller may not act on are out of the
    caller's reach: under the primary keys, whatever call a signed-in
    caller makes, every color row whose palette the caller neither owns
    nor finds marked as a system palette is in the color table after the
    call, unchanged. *)
Theorem foreign_colors_survive
        (c : Call) (context : ActionAPIContext) (w : World) (u : User)
        (row : Color) :
  locals_user context = Some u ->
  pk_unique PaletteColors.id (colors w) ->
  In row (colors w) ->
  ~ may_act_on w (user_id u) (PaletteColors.paletteId row) ->
  In row (colors (world_after c context w)).
Proof.
  intros Hu Hpkc Hin Hforeign.
  destruct c as [i|i|i|i|i|i|i]; unfold world_after.
  - unfold createPalette.handler, bind, requireUser. rewrite Hu.
    cbn. unfold db.insert_palette. cbn.
    now destruct (existsb _ (palettes w)).
  - unfold updatePalette.handler, bind, requireUser. rewrite Hu.
    cbn. rewrite getOwnedPalette_eq.
    destruct (first _) as [p|]; [|exact Hin].
    destruct (negb _ && negb _); [exact Hin|].
    cbn. unfold db.update_palettes. now rewrite updatePalette_set_not_empty.
  - unfold listPalettes.handler, bind, requireUser. now rewrite Hu.
  - unfold createPaletteColor.handler, bind, requireUser. rewrite Hu.
    cbn. rewrite getOwnedPalette_eq.
    destruct (first _) as [p|]; [|exact Hin].
    destruct (negb _ && negb _); [exact Hin|].
    cbn. unfold db.insert_color. cbn.
    destruct (existsb _ (colors w)); cbn; [exact Hin|].
    apply in_or_app. now left.
  - unfold updatePaletteColor.handler, bind, requireUser. rewrite Hu.
    cbn. rewrite getOwnedPalette_eq.
    destruct (first _) as [p|] eqn:Hfirst; [|exact Hin].
    destruct (negb _ && negb _) eqn:Hpass; [exact Hin|].
    apply resolver_passed_inv in Hpass.
    cbn. destruct (first (filter _ (colors w))) as [e|] eqn:He; [|exact Hin].
    unfold db.update_colors. destruct (db.color_set_empty _); [exact Hin|].
    cbn. apply in_map_iff. exists row. split; [|exact Hin].
    destruct (String.eqb_spec (PaletteColors.id row) (updatePaletteColor.id i))
      as [Hid|_]; [|reflexivity].
    exfalso. apply Hforeign.
    apply first_in, filter_In in He as [Hein Hboth].
    apply andb_true_iff in Hboth as [Heid Hepid].
    apply String.eqb_eq in Heid, Hepid.
    assert (Hsame : row = e)
      by (apply (pk_unique_same_key _ _ row e Hpkc Hin Hein); congruence).
    subst e. rewrite Hepid.
    exact (first_may_act_on _ _ _ _ Hfirst Hpass).
  - unfold deletePaletteColor.handler, bind, requireUser. rewrite Hu.
    cbn. rewrite getOwnedPalette_eq.
    destruct (first _) as [p|] eqn:Hfirst; [|exact Hin].
    destruct (negb _ && negb _) eqn:Hpass; [exact Hin|].
    apply resolver_passed_inv in Hpass.
    assert (Hkept : In row (filter
              (fun c => negb ((PaletteColors.id c =? deletePaletteColor.id i)
                              && (PaletteColors.paletteId c
                                  =? deletePaletteColor.paletteId i)))
              (colors w))).
    { apply filter_In. split; [exact Hin|]. apply negb_true_iff, andb_false_iff.
      right. apply String.eqb_neq. intros Hpid. apply Hforeign. rewrite Hpid.
      exact (first_may_act_on _ _ _ _ Hfirst Hpass). }
    cbn. now destruct (Nat.eqb _ 0).
  - unfold listPaletteColors.handler, bind, requireUser. rewrite Hu.
    cbn. rewrite getOwnedPalette_eq.
    destruct (first _) as [p|]; [|exact Hin].
    now destruct (negb _ && negb _).
Qed.

Lemma foreign_colors_survive_witness :
  In Demo.coral
     (colors (world_after (DeletePaletteColor Scenario.drop_coral)
                          (Demo.signed_in Demo.mallory) Demo.world)).
Proof.
  apply (foreign_colors_survive (DeletePaletteColor Scenario.drop_coral)
           (Demo.signed_in Demo.mallory) Demo.world Demo.mallory Demo.coral
           eq_refl demo_pk_colors).
  - cbn. tauto.
  - intros (p & Hp & Hid & Hor). cbn in Hp.
    destruct Hp as [<-|[<-|[<-|[]]]]; cbn in Hid, Hor;
      try discriminate; destruct Hor; discriminate.
Defined.

(** X21. Palettes the caller may not act on are out of the caller's
    reach: under the primary key, whatever call a signed-in caller
    makes, every palette row that the caller does not own and that is no
    system palette is in the palette table after the call, unchanged. *)
Theorem foreign_palettes_survive
        (c : Call) (context : ActionAPIContext) (w : World) (u : User)
        (row : Palette) :
  locals_user context = Some u ->
  pk_unique ColorPalettes.id (palettes w) ->
  In row (palettes w) ->
  ColorPalettes.userId row <> user_id u ->
  ColorPalettes.isSystem row = false ->
  In row (palettes (world_after c context w)).
Proof.
  intros Hu Hpk Hin Hother Hsys.
  destruct c as [i|i|i|i|i|i|i]; unfold world_after.
  - unfold createPalette.handler, bind, requireUser. rewrite Hu.
    cbn. unfold db.insert_palette. cbn.
    destruct (existsb _ (palettes w)); cbn; [exact Hin|].
    apply in_or_app. now left.
  - unfold updatePalette.handler, bind, requireUser. rewrite Hu.
    cbn. rewrite getOwnedPalette_eq.
    destruct (first _) as [p|] eqn:Hfirst; [|exact Hin].
    destruct (negb _ && negb _) eqn:Hpass; [exact Hin|].
    apply resolver_passed_inv in Hpass.
    cbn. unfold db.update_palettes. rewrite updatePalette_set_not_empty.
    cbn. apply in_map_iff. exists row. split; [|exact Hin].
    destruct (String.eqb_spec (ColorPalettes.id row) (updatePalette.id i))
      as [Hid|_]; [|reflexivity].
    exfalso. apply first_in, filter_In in Hfirst as [Hpin Hpid].
    apply String.eqb_eq in Hpid.
    assert (Hsame : row = p)
      by (apply (pk_unique_same_key _ _ row p Hpk Hin Hpin); congruence).
    subst p. destruct Hpass; congruence.
  - unfold listPalettes.handler, bind, requireUser. now rewrite Hu.
  - unfold createPaletteColor.handler, bind, requireUser. rewrite Hu.
    cbn. rewrite getOwnedPalette_eq.
    destruct (first _) as [p|]; [|exact Hin].
    destruct (negb _ && negb _); [exact Hin|].
    cbn. unfold db.insert_color. cbn.
    now destruct (existsb _ (colors w)).
  - unfold updatePaletteColor.handler, bind, requireUser. rewrite Hu.
    cbn. rewrite getOwnedPalette_eq.
    destruct (first _) as [p|]; [|exact Hin].
    destruct (negb _ && negb _); [exact Hin|].
    cbn. destruct (first _); [|exact Hin].
    unfold db.update_colors. now destruct (db.color_set_empty _).
  - unfold deletePaletteColor.handler, bind, requireUser. rewrite Hu.
    cbn. rewrite getOwnedPalette_eq.
    destruct (first _) as [p|]; [|exact Hin].
    destruct (negb _ && negb _); [exact Hin|].
    cbn. now destruct (Nat.eqb _ 0).
  - unfold listPaletteColors.handler, bind, requireUser. rewrite Hu.
    cbn. rewrite getOwnedPalette_eq.
    destruct (first _) as [p|]; [|exact Hin].
    now destruct (negb _ && negb _).
Qed.

Lemma foreign_palettes_survive_witness :
  In Demo.sunset
     (palettes (world_after
                  (UpdatePalette
                     (updatePalette.mk "p1" (Some "Mine now") None None None None))
                  (Demo.signed_in Demo.mallory) Demo.world)).
Proof.
  apply (foreign_palettes_survive
           (UpdatePalette
              (updatePalette.mk "p1" (Some "Mine now") None None None None))
           (Demo.signed_in Demo.mallory) Demo.world Demo.mallory Demo.sunset
           eq_refl demo_pk_palettes).
  - cbn. tauto.
  - discriminate.
  - reflexivity.
Defined.

(** ** The name of a palette *)

(** X22. The schema of [createPalette] refuses an empty name, with the
    world untouched; the schema of [updatePalette] does not: whoever the
    resolver lets through can set the name of a palette to the empty
    string, and the row is stored with it. *)
Theorem empty_name_refused_on_create_only
        (context : ActionAPIContext) (w : World) :
  (forall i, createPalette.name i = "" ->
             server.createPalette i context w = (Throw ActionInputError, w))
  /\ (forall u p,
         locals_user context = Some u ->
         pk_unique ColorPalettes.id (palettes w) ->
         In p (palettes w) -> ColorPalettes.id p <> "" ->
         ColorPalettes.userId p = user_id u \/ ColorPalettes.isSystem p = true ->
         exists p' w',
           server.updatePalette
             (updatePalette.mk (ColorPalettes.id p) (Some "") None None None None)
             context w = (Ok (Some p'), w')
           /\ ColorPalettes.id p' = ColorPalettes.id p
           /\ ColorPalettes.name p' = ""
           /\ In p' (palettes w')).
Proof.
  split.
  - intros i Hname. apply defineAction_rejects.
    unfold createPalette.schema, min1. now rewrite Hname.
  - intros u p Hu Hpk Hin Hid Hor.
    set (i := updatePalette.mk (ColorPalettes.id p) (Some "") None None None None).
    assert (Hschema : updatePalette.schema i = Some i).
    { unfold updatePalette.schema, min1. cbn.
      apply String.eqb_neq in Hid. now rewrite Hid. }
    assert (Hfirst :
      first (filter (fun q => ColorPalettes.id q =? updatePalette.id i) (palettes w))
      = Some p)
      by (cbn; now rewrite (filter_key_unique _ _ _ Hpk Hin)).
    destruct (updatePalette_handler_run i context w u p Hu Hfirst Hor)
      as (w' & Hrun & Hstore & _).
    unfold server.updatePalette.
    rewrite (defineAction_accepts _ _ _ _ _ Hschema), Hrun.
    eexists _, w'. split; [reflexivity|]. split; [reflexivity|].
    split; [reflexivity|].
    rewrite Hstore. apply in_map_iff. exists p. split; [|exact Hin].
    cbn. now rewrite String.eqb_refl.
Qed.

Lemma empty_name_refused_on_create_only_witness :
  server.createPalette (createPalette.mk "" None None None None)
                       (Demo.signed_in Demo.alice) Demo.world
  = (Throw ActionInputError, Demo.world)
  /\ exists p' w',
      server.updatePalette
        (updatePalette.mk "p1" (Some "") None None None None)
        (Demo.signed_in Demo.alice) Demo.world = (Ok (Some p'), w')
      /\ ColorPalettes.id p' = "p1"
      /\ ColorPalettes.name p' = ""
      /\ In p' (palettes w').
Proof.
  split.
  - apply (proj1 (empty_name_refused_on_create_only
                    (Demo.signed_in Demo.alice) Demo.world)).
    reflexivity.
  - apply (proj2 (empty_name_refused_on_create_only
                    (Demo.signed_in Demo.alice) Demo.world)
                 Demo.alice Demo.sunset eq_refl demo_pk_palettes).
    + cbn. tauto.
    + discriminate.
    + now left.
Defined.
